(** * capitolTradeWatcher: the scraper and the field normalizer

    A shallow embedding of [src/python/data_scraper/capitol_trader_scraper.py]
    and the properties of its three classes.

    Conventions.
    - A Python [str] is a [string] holding its UTF-8 encoding, so the en-dash
      U+2013 of the size ranges is the three bytes E2 80 93.
    - A call that can raise returns a [result]: [Ok v] or [Raise e].
    - The builtins [float] and [int] and the HTTP transport are Section
      variables: the repository does not fix what they do on a given string
      or URL.  Small instances of them serve the examples.
    - A parsed document is a [node] tree, read with the BeautifulSoup
      operations the source uses ([find], [find_all], [.text]).
    - The polars operations ([pl.DataFrame] on rows, expressions and
      [with_columns], the conversions of [clean_dataframe]) are modelled for
      the arguments the source passes.
    - [scrape_table] is given twice: on values, and on a heap of list objects
      where allocation, aliasing and [append] are explicit; a lemma relates
      the two.

    The definitions come first, the properties after them. *)

From Stdlib Require Import List String Ascii Bool Arith ZArith QArith Lia.
From Stdlib Require Import DecimalString.
From Stdlib Require DecimalZ.
Import ListNotations.

Close Scope Q_scope.
Local Open Scope string_scope.
Local Open Scope list_scope.

(** ** Exceptions and results *)

Inductive exn : Type :=
| AttributeError   (* attribute access on [None] *)
| TypeError        (* [int(None)] *)
| ValueError       (* [int]/[float] of a malformed string, bad unpacking *)
| HTTPError        (* [requests.get] / [raise_for_status] *)
| ColumnNotFound   (* polars: [pl.col] on a missing column *)
| SchemaError      (* polars: a string operation on a non-string column *)
| ComputeError     (* polars: strict conversion of a malformed value *)
| ShapeError       (* polars: a row that does not fit the columns *)
| DuplicateError   (* polars: a column name given twice *)
| ExprApplyError.  (* polars: building [expr.apply(function, True)] *)

Inductive result (A : Type) : Type :=
| Ok (a : A)
| Raise (e : exn).
Arguments Ok {A} a.
Arguments Raise {A} e.

Definition bind {A B : Type} (r : result A) (k : A -> result B) : result B :=
  match r with
  | Ok a => k a
  | Raise e => Raise e
  end.

Definition of_option {A : Type} (e : exn) (o : option A) : result A :=
  match o with
  | Some a => Ok a
  | None => Raise e
  end.

(** ** Python string operations *)

Module PyStr.

(** [s[n:]] *)
Fixpoint drop (n : nat) (s : string) : string :=
  match n, s with
  | O, _ => s
  | S _, EmptyString => EmptyString
  | S k, String _ s' => drop k s'
  end.

(** [sub in s] *)
Fixpoint contains (sub s : string) : bool :=
  prefix sub s ||
  match s with
  | EmptyString => false
  | String _ s' => contains sub s'
  end.

(** [s.replace(old, new)] for a non-empty [old]: every occurrence, scanning
    from the left without overlap.  [skip] counts the characters of the
    occurrence just replaced that are still to be passed over. *)
Fixpoint replace_from (old new s : string) (skip : nat) : string :=
  match s with
  | EmptyString => EmptyString
  | String c s' =>
      match skip with
      | S k => replace_from old new s' k
      | O =>
          if prefix old s
          then new ++ replace_from old new s' (String.length old - 1)
          else String c (replace_from old new s' 0)
      end
  end.

Definition replace (old new s : string) : string := replace_from old new s 0.

(** [s.split(sep)] for a non-empty [sep].  [cur] is the piece being read,
    reversed; [skip] as in [replace_from]. *)
Fixpoint rev_string (acc s : string) : string :=
  match s with
  | EmptyString => acc
  | String c s' => rev_string (String c acc) s'
  end.

Fixpoint split_from (sep s cur : string) (skip : nat) : list string :=
  match s with
  | EmptyString => [rev_string "" cur]
  | String c s' =>
      match skip with
      | S k => split_from sep s' cur k
      | O =>
          if prefix sep s
          then rev_string "" cur :: split_from sep s' "" (String.length sep - 1)
          else split_from sep s' (String c cur) 0
      end
  end.

Definition split (sep s : string) : list string := split_from sep s "" 0.

End PyStr.

(** The en-dash U+2013, UTF-8 encoded. *)
Definition en_dash : string :=
  String (ascii_of_nat 226) (String (ascii_of_nat 128) (String (ascii_of_nat 147) "")).

(** ** DataFrameCleaner.parse_size *)

Section ParseSize.

(** Python's [float] type, [float(s)] on a [str] ([None]: ValueError) and
    the product of a float by an [int] literal. *)
Variable F : Type.
Variable float : string -> option F.
Variable fmul_int : F -> Z -> F.

Definition to_number (s : string) : result F :=
  if PyStr.contains "K" s then
    bind (of_option ValueError (float (PyStr.replace "K" "" s)))
         (fun x => Ok (fmul_int x 1000%Z))
  else if PyStr.contains "M" s then
    bind (of_option ValueError (float (PyStr.replace "M" "" s)))
         (fun x => Ok (fmul_int x 1000000%Z))
  else of_option ValueError (float s).

Definition parse_size (size_str : string) (minimum_val : bool) : result F :=
  match PyStr.split en_dash size_str with
  | [min_size; max_size] =>
      if minimum_val then to_number min_size else to_number max_size
  | _ => Raise ValueError
  end.

End ParseSize.


(** *** Plain decimal literals and an exact instance of [float]

    [read_decimal] reads [digits[.digits]] with at least one digit and returns
    the digits read as an integer together with the number of fractional
    digits. *)

Definition is_digit (c : ascii) : bool :=
  ((48 <=? nat_of_ascii c) && (nat_of_ascii c <=? 57))%nat.

Definition digit_val (c : ascii) : Z := Z.of_nat (nat_of_ascii c - 48)%nat.

(** The number written by a string of digits, after [acc]. *)
Fixpoint read_digits (s : string) (acc : Z) : option Z :=
  match s with
  | EmptyString => Some acc
  | String c s' =>
      if is_digit c then read_digits s' (10 * acc + digit_val c)%Z else None
  end.

Fixpoint read_decimal (s : string) (seen_dot : bool) (mant : Z) (frac ndig : nat)
  : option (Z * nat) :=
  match s with
  | EmptyString => if (0 <? ndig)%nat then Some (mant, frac) else None
  | String c s' =>
      if is_digit c then
        read_decimal s' seen_dot (10 * mant + digit_val c)%Z
                     (if seen_dot then S frac else frac) (S ndig)
      else if Ascii.eqb c "." && negb seen_dot then
        read_decimal s' true mant frac ndig
      else None
  end.

Definition is_decimal (s : string) : bool :=
  match read_decimal s false 0%Z 0%nat 0%nat with
  | Some _ => true
  | None => false
  end.

(** The suffix of a bound, its text and its factor. *)
Inductive suffix : Type := NoSuffix | SuffixK | SuffixM.

Definition suffix_text (x : suffix) : string :=
  match x with
  | NoSuffix => ""
  | SuffixK => "K"
  | SuffixM => "M"
  end.

Definition range_text (a : string) (sa : suffix) (b : string) (sb : suffix) : string :=
  (a ++ suffix_text sa) ++ en_dash ++ (b ++ suffix_text sb).

(** The value of a bound: [float] of its digits, scaled by the suffix. *)
Definition scaled_bound (F : Type) (float : string -> option F)
    (fmul_int : F -> Z -> F) (a : string) (sa : suffix) : result F :=
  match float a with
  | None => Raise ValueError
  | Some x =>
      Ok match sa with
         | NoSuffix => x
         | SuffixK => fmul_int x 1000%Z
         | SuffixM => fmul_int x 1000000%Z
         end
  end.

(** Every character of [s] passes [p]. *)
Fixpoint all_chars (p : ascii -> bool) (s : string) : bool :=
  match s with
  | EmptyString => true
  | String c s' => p c && all_chars p s'
  end.

Definition decimal_char (c : ascii) : bool := is_digit c || Ascii.eqb c ".".

Definition other_than (ch c : ascii) : bool := negb (Ascii.eqb c ch).

Module Exact.

(** Floats as reduced fractions, without rounding: exact on the plain decimal
    literals whose value and scaled value binary64 represents exactly (every
    integer below 2^53 among them).  Literals of other shapes that Python
    accepts (sign, exponent, [inf], [nan]) are left out of this instance. *)
Definition float (s : string) : option Q :=
  match read_decimal s false 0%Z 0%nat 0%nat with
  | Some (mant, frac) => Some (Qred (mant # Pos.of_nat (10 ^ frac)%nat))
  | None => None
  end.

Definition fmul_int (x : Q) (n : Z) : Q := Qred (x * inject_Z n)%Q.

Definition parse_size : string -> bool -> result Q := parse_size Q float fmul_int.

End Exact.

(** ** Parsed documents and the BeautifulSoup operations used by the source *)

Set Warnings "-register-all".

(** A document tree: character data and tags.  [classes] is the value of the
    [class] attribute as the parser keeps it, split at whitespace.  Only the
    strings that [.text] collects are represented. *)
Inductive node : Type :=
| Text (s : string)
| Tag (name : string) (classes : list string) (children : list node).

Module Soup.

(** Every node strictly below [n], in document order. *)
Fixpoint descendants (n : node) : list node :=
  match n with
  | Text _ => []
  | Tag _ _ cs => flat_map (fun c => c :: descendants c) cs
  end.

Definition is_tag (name : string) (n : node) : bool :=
  match n with
  | Text _ => false
  | Tag nm _ _ => String.eqb nm name
  end.

(** A multi-valued [class] matches a string when one of its values is that
    string or when the values joined by single blanks are. *)
Definition has_class (cls : string) (n : node) : bool :=
  match n with
  | Text _ => false
  | Tag _ cl _ => existsb (String.eqb cls) cl || String.eqb (String.concat " " cl) cls
  end.

(** [n.find_all(name)] *)
Definition find_all (name : string) (n : node) : list node :=
  filter (is_tag name) (descendants n).

(** [n.find(name, class_=cls)]; [None] when nothing matches. *)
Definition find (name cls : string) (n : node) : option node :=
  List.find (fun x => is_tag name x && has_class cls x) (descendants n).

(** [n.text] *)
Fixpoint text (n : node) : string :=
  match n with
  | Text s => s
  | Tag _ _ cs => String.concat "" (map text cs)
  end.

End Soup.

(** *** [str.strip()]

    The characters Python counts as whitespace, in UTF-8: U+0009..000D,
    U+001C..0020, then U+0085 and U+00A0 on two bytes, U+1680, U+2000..200A,
    U+2028, U+2029, U+202F, U+205F and U+3000 on three. *)

Definition ws1 (c : ascii) : bool :=
  let n := nat_of_ascii c in
  (((9 <=? n) && (n <=? 13)) || ((28 <=? n) && (n <=? 32)))%nat.

Definition ws2 (c1 c2 : ascii) : bool :=
  let n1 := nat_of_ascii c1 in
  let n2 := nat_of_ascii c2 in
  ((n1 =? 194) && ((n2 =? 133) || (n2 =? 160)))%nat.

Definition ws3 (c1 c2 c3 : ascii) : bool :=
  let n1 := nat_of_ascii c1 in
  let n2 := nat_of_ascii c2 in
  let n3 := nat_of_ascii c3 in
  (((n1 =? 225) && (n2 =? 154) && (n3 =? 128))
   || ((n1 =? 226) && (n2 =? 128)
       && (((128 <=? n3) && (n3 <=? 138)) || (n3 =? 168) || (n3 =? 169) || (n3 =? 175)))
   || ((n1 =? 226) && (n2 =? 129) && (n3 =? 159))
   || ((n1 =? 227) && (n2 =? 128) && (n3 =? 128)))%nat.

(** Leading whitespace removed, [w1] telling the one-byte whitespace.  With
    [back = true] the string is read from its end, so the bytes of a character
    arrive last byte first. *)
Fixpoint lstrip (w1 : ascii -> bool) (back : bool) (s : string) : string :=
  match s with
  | EmptyString => EmptyString
  | String c1 s1 =>
      if w1 c1 then lstrip w1 back s1
      else
        match s1 with
        | EmptyString => s
        | String c2 s2 =>
            if (if back then ws2 c2 c1 else ws2 c1 c2) then lstrip w1 back s2
            else
              match s2 with
              | EmptyString => s
              | String c3 s3 =>
                  if (if back then ws3 c3 c2 c1 else ws3 c1 c2 c3)
                  then lstrip w1 back s3
                  else s
              end
        end
  end.

Definition strip (s : string) : string :=
  PyStr.rev_string "" (lstrip ws1 true (PyStr.rev_string "" (lstrip ws1 false s))).

(** [xs[:-1]] *)
Definition but_last {A : Type} (xs : list A) : list A := removelast xs.

(** ** BeautifulSoupHelpers.get_table_headers

    [table] is what [soup.find] returned: [None] has no [find_all]. *)
Definition get_table_headers (table : option node) : result (list string) :=
  match table with
  | None => Raise AttributeError
  | Some t => Ok (map (fun header => strip (Soup.text header)) (Soup.find_all "th" t))
  end.

(** ** CapitolTraderScraper.scrape_table *)

Definition trades_table (soup : node) : option node :=
  Soup.find "table" "q-table trades-table" soup.

(** The value appended for one [tr], if any. *)
Definition row_values (row : node) : option (list string) :=
  let cells := Soup.find_all "td" row in
  if (0 <? List.length cells)%nat
  then Some (but_last (map (fun cell => strip (Soup.text cell)) cells))
  else None.

Fixpoint table_rows (trs : list node) : list (list string) :=
  match trs with
  | [] => []
  | row :: rest =>
      match row_values row with
      | Some r => r :: table_rows rest
      | None => table_rows rest
      end
  end.

Definition scrape_table (soup : node) (headers : option (list string))
  : result (list (list string) * list string) :=
  let table := trades_table soup in
  bind (match headers with
        | None => bind (get_table_headers table) (fun hs => Ok (but_last hs))
        | Some hs => Ok hs
        end)
       (fun headers =>
          let rows :=
            match table with
            | Some t => table_rows (Soup.find_all "tr" t)
            | None => []
            end in
          Ok (rows, headers)).

(** The trimmed text of each cell, in order. *)
Definition cell_texts (cells : list node) : list string :=
  map (fun cell => strip (Soup.text cell)) cells.

(** The rows a page contributes: those of its trades table, none without one. *)
Definition page_rows (soup : node) : list (list string) :=
  match trades_table soup with
  | Some t => table_rows (Soup.find_all "tr" t)
  | None => []
  end.

(** The header sequence after a run over [pages], [docs] giving the document
    of each: the one derived from the first page. *)
Definition first_headers (docs : Z -> node) (pages : list Z) : option (list string) :=
  match pages with
  | [] => None
  | p :: _ =>
      option_map (fun t => but_last (cell_texts (Soup.find_all "th" t)))
                 (trades_table (docs p))
  end.

(** A document without the trades table. *)
Definition no_table_page : node :=
  Tag "[document]" [] [Tag "p" [] [Text "No trades found"]].

(** ** Fetching pages

    A computation that issues HTTP GETs carries the list of URLs requested so
    far, oldest first; a raised exception keeps the list. *)

Definition Fetch (A : Type) : Type := list string -> result A * list string.

Definition fret {A : Type} (a : A) : Fetch A := fun log => (Ok a, log).

Definition fbind {A B : Type} (m : Fetch A) (k : A -> Fetch B) : Fetch B :=
  fun log =>
    match m log with
    | (Ok a, log') => k a log'
    | (Raise e, log') => (Raise e, log')
    end.

Definition lift {A : Type} (r : result A) : Fetch A := fun log => (r, log).

Notation "x <- m ;; k" := (fbind m (fun x => k))
  (at level 61, m at next level, right associativity).
Notation "' p <- m ;; k" := (fbind m (fun x => match x with p => k end))
  (at level 61, p pattern, m at next level, right associativity).

(** [range(lo, hi)] *)
Definition range (lo hi : Z) : list Z :=
  map (fun i => (lo + Z.of_nat i)%Z) (seq 0 (Z.to_nat (hi - lo))).

(** [f'{page}'] *)
Definition format_int (n : Z) : string := NilEmpty.string_of_int (Z.to_int n).

(** ** The polars operations of the source

    The library is not part of the repository; its operations are modelled as
    it documents and implements them for the arguments the source passes. *)

Record date : Type := { year : Z; month : Z; day : Z }.

Module Polars.

(** A typed column and a frame of named columns. *)
Inductive Series : Type :=
| Utf8 (vs : list string)
| Datetime (vs : list date)
| Int64 (vs : list Z).

Definition DataFrame : Type := list (string * Series).

(** [pl.col(name)] evaluated on [df] *)
Fixpoint col (name : string) (df : DataFrame) : result Series :=
  match df with
  | [] => Raise ColumnNotFound
  | (n, s) :: rest => if String.eqb n name then Ok s else col name rest
  end.

(** One column of [df.with_columns]: it replaces the column of that name where
    it stands, or is added at the end. *)
Fixpoint with_column (name : string) (s : Series) (df : DataFrame) : DataFrame :=
  match df with
  | [] => [(name, s)]
  | (n, old) :: rest =>
      if String.eqb n name then (n, s) :: rest
      else (n, old) :: with_column name s rest
  end.

Definition series_length (s : Series) : nat :=
  match s with
  | Utf8 vs => List.length vs
  | Datetime vs => List.length vs
  | Int64 vs => List.length vs
  end.

(** [df.height]: the length of the columns, 0 when there is none. *)
Definition height (df : DataFrame) : nat :=
  match df with
  | [] => 0%nat
  | (_, s) :: _ => series_length s
  end.

(** *** [pl.DataFrame(rows, schema=names, orient='row')] on rows of text

    Every row must have one value for each column, or the call raises
    ShapeError; the names must differ from each other.  Without a schema the
    columns are named [column_0], [column_1], ... after the first row.  The
    columns are columns of text; the type the library gives to a column
    without any value is not modelled. *)

(** Column [j] of the rows. *)
Definition column (j : nat) (rows : list (list string)) : list string :=
  map (fun row => nth j row "") rows.

Fixpoint columns_from (j : nat) (names : list string) (rows : list (list string))
  : DataFrame :=
  match names with
  | [] => []
  | name :: rest => (name, Utf8 (column j rows)) :: columns_from (S j) rest rows
  end.

Fixpoint no_repeat (names : list string) : bool :=
  match names with
  | [] => true
  | name :: rest => negb (existsb (String.eqb name) rest) && no_repeat rest
  end.

Definition default_names (n : nat) : list string :=
  map (fun i => ("column_" ++ format_int (Z.of_nat i))%string) (seq 0 n).

Definition data_frame (rows : list (list string)) (schema : option (list string))
  : result DataFrame :=
  let names :=
    match schema with
    | Some names => names
    | None =>
        match rows with
        | [] => []
        | first :: _ => default_names (List.length first)
        end
    end in
  if forallb (fun row => (List.length row =? List.length names)%nat) rows then
    if no_repeat names then Ok (columns_from 0 names rows)
    else Raise DuplicateError
  else Raise ShapeError.

(** Strict element-wise conversion: one failing value fails the column. *)
Fixpoint traverse {A B : Type} (f : A -> option B) (xs : list A) : result (list B) :=
  match xs with
  | [] => Ok []
  | x :: rest =>
      match f x with
      | None => Raise ComputeError
      | Some y => bind (traverse f rest) (fun ys => Ok (y :: ys))
      end
  end.

(** *** [str.replace(pattern, value)]: the first match only.  The pattern of
    the source has no regex metacharacter, so it matches as a literal. *)
Fixpoint replace_first (pattern value s : string) : string :=
  if prefix pattern s then value ++ PyStr.drop (String.length pattern) s
  else
    match s with
    | EmptyString => EmptyString
    | String c s' => String c (replace_first pattern value s')
    end.

Definition str_replace (pattern value : string) (s : Series) : result Series :=
  match s with
  | Utf8 vs => Ok (Utf8 (map (replace_first pattern value) vs))
  | _ => Raise SchemaError
  end.

(** *** [str.to_integer()]: base 10, strict, 64-bit.  An optional sign, then
    one or more ASCII digits and nothing else. *)
Definition parse_i64 (s : string) : option Z :=
  let '(negative, body) :=
    match s with
    | String "-" s' => (true, s')
    | String "+" s' => (false, s')
    | _ => (false, s)
    end in
  match body with
  | EmptyString => None
  | _ =>
      match read_digits body 0 with
      | None => None
      | Some n =>
          let v := if negative then (- n)%Z else n in
          if ((- 2 ^ 63 <=? v) && (v <? 2 ^ 63))%Z then Some v else None
      end
  end.

Definition str_to_integer (s : Series) : result Series :=
  match s with
  | Utf8 vs => bind (traverse parse_i64 vs) (fun zs => Ok (Int64 zs))
  | _ => Raise SchemaError
  end.

(** *** [str.to_datetime(format)]: strict, through chrono's [strftime] items.

    Of the items only those of the source's format are modelled.  A numeric
    item skips leading whitespace and reads from one digit up to its width
    (a year with an explicit sign reads every digit); a blank in the format
    skips any whitespace; a month name is three letters in either case;
    nothing may follow the last item, and the fields must name a day of the
    proleptic Gregorian calendar. *)
Inductive item : Type :=
| Day               (* %d *)
| ShortMonthName    (* %b *)
| Year              (* %Y *)
| Space
| Literal (c : ascii).

Fixpoint strftime_items (fmt : string) : option (list item) :=
  match fmt with
  | EmptyString => Some []
  | String c rest =>
      if Ascii.eqb c "%" then
        match rest with
        | EmptyString => None
        | String d rest' =>
            let spec :=
              if Ascii.eqb d "d" then Some Day
              else if Ascii.eqb d "b" then Some ShortMonthName
              else if Ascii.eqb d "Y" then Some Year
              else None in
            match spec, strftime_items rest' with
            | Some i, Some items => Some (i :: items)
            | _, _ => None
            end
        end
      else
        option_map (cons (if Ascii.eqb c " " then Space else Literal c))
                   (strftime_items rest)
  end.

(** Rust's [str::trim_start]: the White_Space code points. *)
Definition rust_ws1 (c : ascii) : bool :=
  let n := nat_of_ascii c in
  (((9 <=? n) && (n <=? 13)) || (n =? 32))%nat.

Definition trim_start (s : string) : string := lstrip rust_ws1 false s.

(** [scan::number(s, 1, max)]: at least one and at most [max] digits. *)
Fixpoint scan_number (max : nat) (s : string) (acc : Z) (read : nat)
  : option (Z * string) :=
  match max, s with
  | S k, String c s' =>
      if is_digit c then scan_number k s' (10 * acc + digit_val c)%Z (S read)
      else if (0 <? read)%nat then Some (acc, s) else None
  | _, _ => if (0 <? read)%nat then Some (acc, s) else None
  end.

Definition scan_year (s : string) : option (Z * string) :=
  match s with
  | String "-" s' =>
      option_map (fun '(v, r) => ((- v)%Z, r)) (scan_number (String.length s') s' 0 0)
  | String "+" s' => scan_number (String.length s') s' 0 0
  | _ => scan_number 4 s 0 0
  end.

Definition lower (c : ascii) : nat :=
  let n := nat_of_ascii c in
  if ((65 <=? n) && (n <=? 90))%nat then n + 32 else n.

Definition month_names : list string :=
  ["jan"; "feb"; "mar"; "apr"; "may"; "jun";
   "jul"; "aug"; "sep"; "oct"; "nov"; "dec"].

Fixpoint index_of (x : string) (xs : list string) (i : Z) : option Z :=
  match xs with
  | [] => None
  | y :: rest => if String.eqb x y then Some i else index_of x rest (i + 1)%Z
  end.

(** [scan::short_month0], counted from 1. *)
Definition scan_short_month (s : string) : option (Z * string) :=
  match s with
  | String a (String b (String c rest)) =>
      let key :=
        String (ascii_of_nat (lower a))
          (String (ascii_of_nat (lower b)) (String (ascii_of_nat (lower c)) "")) in
      option_map (fun m => (m, rest)) (index_of key month_names 1)
  | _ => None
  end.

Record parsed : Type := {
  p_year : option Z;
  p_month : option Z;
  p_day : option Z
}.

Fixpoint parse_items (items : list item) (s : string) (p : parsed) : option parsed :=
  match items with
  | [] => match s with EmptyString => Some p | _ => None end
  | Day :: rest =>
      match scan_number 2 (trim_start s) 0 0 with
      | Some (v, s') =>
          parse_items rest s' {| p_year := p_year p; p_month := p_month p; p_day := Some v |}
      | None => None
      end
  | ShortMonthName :: rest =>
      match scan_short_month s with
      | Some (v, s') =>
          parse_items rest s' {| p_year := p_year p; p_month := Some v; p_day := p_day p |}
      | None => None
      end
  | Year :: rest =>
      match scan_year (trim_start s) with
      | Some (v, s') =>
          parse_items rest s' {| p_year := Some v; p_month := p_month p; p_day := p_day p |}
      | None => None
      end
  | Space :: rest => parse_items rest (trim_start s) p
  | Literal c :: rest =>
      match s with
      | String c' s' => if Ascii.eqb c c' then parse_items rest s' p else None
      | EmptyString => None
      end
  end.

Definition is_leap (y : Z) : bool :=
  (((y mod 4 =? 0) && negb (y mod 100 =? 0)) || (y mod 400 =? 0))%Z.

Definition days_in_month (y m : Z) : Z :=
  if (m =? 2)%Z then (if is_leap y then 29 else 28)%Z
  else if ((m =? 4) || (m =? 6) || (m =? 9) || (m =? 11))%Z then 30%Z
  else 31%Z.

Definition to_naive_date (p : parsed) : option date :=
  match p_year p, p_month p, p_day p with
  | Some y, Some m, Some d =>
      if ((-262143 <=? y) && (y <=? 262142) && (1 <=? m) && (m <=? 12)
          && (1 <=? d) && (d <=? days_in_month y m))%Z
      then Some {| year := y; month := m; day := d |}
      else None
  | _, _, _ => None
  end.

Definition strptime (fmt s : string) : option date :=
  match strftime_items fmt with
  | None => None
  | Some items =>
      match parse_items items s {| p_year := None; p_month := None; p_day := None |} with
      | Some p => to_naive_date p
      | None => None
      end
  end.

Definition str_to_datetime (fmt : string) (s : Series) : result Series :=
  match s with
  | Utf8 vs => bind (traverse (strptime fmt) vs) (fun ds => Ok (Datetime ds))
  | _ => Raise SchemaError
  end.

(** *** Expressions and [df.with_columns]

    An expression is built first and evaluated on a frame later. *)
Inductive Expr : Type :=
| Col (name : string)                          (* pl.col(name) *)
| StrToDatetime (e : Expr) (fmt : string)      (* e.str.to_datetime(fmt) *)
| StrReplace (e : Expr) (pattern value : string)
| StrToInteger (e : Expr)
| Alias (e : Expr) (name : string).

Fixpoint eval (e : Expr) (df : DataFrame) : result Series :=
  match e with
  | Col name => col name df
  | StrToDatetime e fmt => bind (eval e df) (str_to_datetime fmt)
  | StrReplace e pattern value => bind (eval e df) (str_replace pattern value)
  | StrToInteger e => bind (eval e df) str_to_integer
  | Alias e _ => eval e df
  end.

(** The name of the column an expression gives. *)
Fixpoint output_name (e : Expr) : string :=
  match e with
  | Col name => name
  | StrToDatetime e _ => output_name e
  | StrReplace e _ _ => output_name e
  | StrToInteger e => output_name e
  | Alias _ name => name
  end.

Fixpoint eval_all (es : list Expr) (df : DataFrame)
  : result (list (string * Series)) :=
  match es with
  | [] => Ok []
  | e :: rest =>
      bind (eval e df) (fun s =>
      bind (eval_all rest df) (fun cols => Ok ((output_name e, s) :: cols)))
  end.

(** Every expression is evaluated on the frame received, then the columns
    are put in place. *)
Definition with_columns (es : list Expr) (df : DataFrame) : result DataFrame :=
  bind (eval_all es df)
       (fun cols => Ok (fold_left (fun d c => with_column (fst c) (snd c) d) cols df)).

(** [e.apply(function, True)].  The second positional parameter of [apply] is
    the data type of the result, which [True] is not, and the releases of the
    library that no longer have [apply] have nothing to call: in both cases
    building the expression raises, before any frame is looked at. *)
Definition apply_with_true (e : Expr) : result Expr := Raise ExprApplyError.

End Polars.

(** ** The scraper *)

Section Scraper.

(** The site: the document served for a URL, [None] when the request fails or
    is answered with an error status. *)
Variable http_get : string -> option node.

(** Python's [int(s)] on a [str]; [None] is ValueError. *)
Variable int_of_str : string -> option Z.

(** [self.url] *)
Definition url : string := "https://www.capitoltrades.com/trades".

(** BeautifulSoupHelpers.get_html_soup *)
Definition get_html_soup (u : string) : Fetch node :=
  fun log => (of_option HTTPError (http_get u), log ++ [u]).

(** [int(x)] where [x] is a [str] or [None] *)
Definition py_int (x : option string) : result Z :=
  match x with
  | None => Raise TypeError
  | Some s => of_option ValueError (int_of_str s)
  end.

(** The assignments of [number_of_pages] between the fetch and [int]. *)
Definition total_pages_text (soup : node) : option string :=
  match Soup.find "p" "hidden leading-7 sm:block" soup with
  | Some page_info =>
      let bold_tags := Soup.find_all "b" page_info in
      if (1 <? List.length bold_tags)%nat
      then option_map (fun b => strip (Soup.text b)) (nth_error bold_tags 1)
      else None
  | None => None
  end.

(** CapitolTraderScraper.number_of_pages *)
Definition number_of_pages : Fetch Z :=
  soup <- get_html_soup url ;;
  lift (py_int (total_pages_text soup)).

Definition page_url (page : Z) : string :=
  "https://www.capitoltrades.com/trades?page=" ++ format_int page.

(** One turn of the loop of [scrape_trades]. *)
Definition scrape_page (page : Z) (acc : list (list string) * option (list string))
  : Fetch (list (list string) * option (list string)) :=
  let '(all_rows, headers) := acc in
  soup <- get_html_soup (page_url page) ;;
  ' (page_rows, headers) <- lift (scrape_table soup headers) ;;
  let all_rows :=
    match page_rows with
    | [] => all_rows
    | first :: _ =>
        let all_rows :=
          if negb (List.length first =? List.length headers)%nat
          then all_rows (* pass *)
          else all_rows in
        all_rows ++ page_rows
    end in
  fret (all_rows, Some headers).

Fixpoint scrape_pages (pages : list Z) (acc : list (list string) * option (list string))
  : Fetch (list (list string) * option (list string)) :=
  match pages with
  | [] => fret acc
  | page :: rest => acc' <- scrape_page page acc ;; scrape_pages rest acc'
  end.

(** CapitolTraderScraper.scrape_trades *)
Definition scrape_trades : Fetch Polars.DataFrame :=
  total_pages <- number_of_pages ;;
  ' (all_rows, headers) <- scrape_pages (range 1 (total_pages + 1)) ([], None) ;;
  df <- lift (Polars.data_frame all_rows headers) ;;
  fret df.

End Scraper.

(** ** DataFrameCleaner.clean_dataframe *)

(** The format given to both date columns. *)
Definition date_format : string := "%d %b%Y".

(** The first [with_columns]: both expressions are evaluated on the frame
    received, then put in place. *)
Definition convert_dates (df : Polars.DataFrame) : result Polars.DataFrame :=
  bind (bind (Polars.col "Published" df) (Polars.str_to_datetime date_format))
    (fun published =>
  bind (bind (Polars.col "Traded" df) (Polars.str_to_datetime date_format))
    (fun traded =>
  Ok (Polars.with_column "Traded" traded
        (Polars.with_column "Published" published df)))).

(** The expressions of the second [with_columns], built in the order of the
    list before [with_columns] is called: the one on [Filed after] is only
    built, and building the next one raises. *)
Definition second_expressions : result (list Polars.Expr) :=
  let filed_after :=
    Polars.StrToInteger (Polars.StrReplace (Polars.Col "Filed after") "days" "") in
  bind (Polars.apply_with_true (Polars.Col "Size")) (fun size_min =>
  bind (Polars.apply_with_true (Polars.Col "Size")) (fun size_max =>
  Ok [filed_after; Polars.Alias size_min "Size_min"; Polars.Alias size_max "Size_max"])).

Definition clean_dataframe (df : Polars.DataFrame) : result Polars.DataFrame :=
  bind (convert_dates df) (fun df =>
  bind second_expressions (fun es => Polars.with_columns es df)).

(** The date pattern as the specification words it: a day of one or two
    digits, a blank, a three-letter month abbreviation in any letter case, a
    year of exactly four digits, and nothing else. *)
Definition worded_date_pattern (v : string) : bool :=
  let after_day :=
    match v with
    | String d1 (String d2 rest) =>
        if is_digit d1 && is_digit d2 then Some rest
        else if is_digit d1 then Some (String d2 rest)
        else None
    | _ => None
    end in
  match after_day with
  | Some (String blank (String a (String b (String c
      (String y1 (String y2 (String y3 (String y4 EmptyString)))))))) =>
      Ascii.eqb blank " "
      && match Polars.scan_short_month (String a (String b (String c ""))) with
         | Some _ => true
         | None => false
         end
      && is_digit y1 && is_digit y2 && is_digit y3 && is_digit y4
  | _ => false
  end.

(** ** [scrape_table] on the Python heap

    The lists the function handles are objects: the [headers] argument is a
    reference that the function may return as it is, [rows] and every row are
    allocated by the call, and [append] updates an object in place.  The
    document is only read.  [scrape_table] above is the same function on
    values; [Heap.scrape_table] makes allocation, aliasing and update
    explicit. *)

Module Heap.

Definition loc : Type := nat.

Inductive obj : Type :=
| StrList (xs : list string)     (* a list of [str] *)
| RowList (rs : list loc).       (* a list of lists *)

Definition heap : Type := list obj.

Definition St (A : Type) : Type := heap -> result A * heap.

Definition ret {A : Type} (a : A) : St A := fun h => (Ok a, h).

Definition raise {A : Type} (e : exn) : St A := fun h => (Raise e, h).

Definition sbind {A B : Type} (m : St A) (k : A -> St B) : St B :=
  fun h =>
    match m h with
    | (Ok a, h') => k a h'
    | (Raise e, h') => (Raise e, h')
    end.

Fixpoint update (l : loc) (o : obj) (h : heap) : heap :=
  match h, l with
  | [], _ => []
  | _ :: t, O => o :: t
  | x :: t, S k => x :: update k o t
  end.

(** A new object, at the first unused location. *)
Definition alloc (o : obj) : St loc := fun h => (Ok (List.length h), h ++ [o]).

Definition read (l : loc) : St obj :=
  fun h => (of_option AttributeError (nth_error h l), h).

(** [l.append(x)] on a list of strings *)
Definition append_str (l : loc) (x : string) : St unit :=
  sbind (read l) (fun o =>
    match o with
    | StrList xs => fun h => (Ok tt, update l (StrList (xs ++ [x])) h)
    | RowList _ => raise TypeError
    end).

(** [l.append(r)] on a list of lists *)
Definition append_row (l r : loc) : St unit :=
  sbind (read l) (fun o =>
    match o with
    | RowList rs => fun h => (Ok tt, update l (RowList (rs ++ [r])) h)
    | StrList _ => raise TypeError
    end).

(** [l[:-1]]: a new list *)
Definition slice_but_last (l : loc) : St loc :=
  sbind (read l) (fun o =>
    match o with
    | StrList xs => alloc (StrList (but_last xs))
    | RowList rs => alloc (RowList (but_last rs))
    end).

(** [for x in xs: body(x)] *)
Fixpoint for_each {A : Type} (xs : list A) (body : A -> St unit) : St unit :=
  match xs with
  | [] => ret tt
  | x :: rest => sbind (body x) (fun _ => for_each rest body)
  end.

Definition get_table_headers (table : option node) : St loc :=
  sbind (alloc (StrList [])) (fun headers =>
    match table with
    | None => raise AttributeError
    | Some t =>
        sbind (for_each (Soup.find_all "th" t)
                 (fun header => append_str headers (strip (Soup.text header))))
              (fun _ => ret headers)
    end).

(** The body of the loop over the [tr] elements. *)
Definition scrape_row (rows : loc) (row : node) : St unit :=
  let cells := Soup.find_all "td" row in
  if (0 <? List.length cells)%nat then
    sbind (alloc (StrList (map (fun cell => strip (Soup.text cell)) cells))) (fun row =>
    sbind (slice_but_last row) (fun r =>
    append_row rows r))
  else ret tt.

Definition scrape_table (soup : node) (headers : option loc) : St (loc * loc) :=
  let table := trades_table soup in
  sbind (match headers with
         | None => sbind (get_table_headers table) slice_but_last
         | Some l => ret l
         end) (fun headers =>
  sbind (alloc (RowList [])) (fun rows =>
  sbind (match table with
         | Some t => for_each (Soup.find_all "tr" t) (scrape_row rows)
         | None => ret tt
         end) (fun _ =>
  ret (rows, headers)))).

(** Reading a result back as values. *)
Definition strs_at (h : heap) (l : loc) : option (list string) :=
  match nth_error h l with
  | Some (StrList xs) => Some xs
  | _ => None
  end.

Fixpoint all_some {A : Type} (xs : list (option A)) : option (list A) :=
  match xs with
  | [] => Some []
  | Some x :: rest => option_map (cons x) (all_some rest)
  | None :: _ => None
  end.

Definition rows_at (h : heap) (l : loc) : option (list (list string)) :=
  match nth_error h l with
  | Some (RowList rs) => all_some (map (strs_at h) rs)
  | _ => None
  end.

(** The outcome of a call as the caller can observe it: the exception, or the
    contents of the two lists returned; [None] if a reference returned is
    not a list of the expected kind. *)
Definition observe (out : result (loc * loc) * heap)
  : option (result (list (list string) * list string)) :=
  match out with
  | (Raise e, _) => Some (Raise e)
  | (Ok (rows, headers), h) =>
      match rows_at h rows, strs_at h headers with
      | Some rs, Some hs => Some (Ok (rs, hs))
      | _, _ => None
      end
  end.

(** Every object of [h] is still in [h'], unchanged. *)
Definition preserved (h h' : heap) : Prop :=
  forall l, (l < List.length h)%nat -> nth_error h' l = nth_error h l.

End Heap.

(** The state of the loop over the [tr] elements: above the heap [g] reached
    when [rows] was allocated, at location [length g], the list [rows] holds
    references to the rows [vals]; [g] itself is untouched. *)
Definition rows_inv (g : Heap.heap) (vals : list (list string)) (h : Heap.heap) : Prop :=
  (List.length g < List.length h)%nat
  /\ (forall l, (l < List.length g)%nat -> nth_error h l = nth_error g l)
  /\ exists rs,
       nth_error h (List.length g) = Some (Heap.RowList rs)
       /\ Heap.all_some (map (Heap.strs_at h) rs) = Some vals.

(** ** The script

    The part of the [__main__] block that reaches the site: the page count is
    fetched and printed, then the trades are scraped into a frame.  Turning
    the frame into a pandas frame and writing the file come after and are
    left out. *)
Definition main_scrape (http_get : string -> option node)
    (int_of_str : string -> option Z) : Fetch Polars.DataFrame :=
  _ <- number_of_pages http_get int_of_str ;;
  df_raw <- scrape_trades http_get int_of_str ;;
  fret df_raw.

(** Whether a page has the trades table. *)
Definition has_table (soup : node) : bool :=
  match trades_table soup with
  | Some _ => true
  | None => false
  end.

(** [df.columns] *)
Definition column_names (df : Polars.DataFrame) : list string := map fst df.

(** ** A small site, for the examples

    Three pages of trades behind a first page that announces them.  The last
    row of page 1 has a single cell and the row of page 3 has more cells than
    there are headers. *)

Module Sample.

Definition th (s : string) : node := Tag "th" [] [Text s].
Definition td (s : string) : node := Tag "td" [] [Text s].

Definition table (cols : list string) (rows : list (list string)) : node :=
  Tag "table" ["q-table"; "trades-table"]
    [Tag "thead" [] [Tag "tr" [] (map th cols)];
     Tag "tbody" [] (map (fun r => Tag "tr" [] (map td r)) rows)].

Definition page (cols : list string) (rows : list (list string)) : node :=
  Tag "[document]" []
    [Tag "p" ["hidden"; "leading-7"; "sm:block"]
       [Text "Page "; Tag "b" [] [Text "1"]; Text " of "; Tag "b" [] [Text " 3 "]];
     table cols rows].

Definition page1 : node := page ["A"; "B"; "Actions"] [["x"; " y "; "z"]; ["only"]].
Definition page2 : node := page ["A"; "B"; "Actions"] [["p"; "q"; "r"]].
Definition page3 : node := page ["A"; "B"; "Actions"] [["u"; "v"; "w"; "more"; "go"]].

Definition http_get (u : string) : option node :=
  if String.eqb u "https://www.capitoltrades.com/trades" then Some page1
  else if String.eqb u "https://www.capitoltrades.com/trades?page=1" then Some page1
  else if String.eqb u "https://www.capitoltrades.com/trades?page=2" then Some page2
  else if String.eqb u "https://www.capitoltrades.com/trades?page=3" then Some page3
  else None.

(** [int] on the strings of ASCII digits. *)
Definition int_of_str (s : string) : option Z :=
  match s with
  | EmptyString => None
  | _ => read_digits s 0
  end.

Definition scrape_trades : Fetch Polars.DataFrame :=
  scrape_trades http_get int_of_str.

Definition frame : Polars.DataFrame :=
  [("Politician", Polars.Utf8 ["N. Example"; "M. Sample"]);
   ("Published", Polars.Utf8 ["15 Mar2023"; "2 Apr2023"]);
   ("Traded", Polars.Utf8 ["28 Feb2023"; "31 Mar2023"]);
   ("Filed after", Polars.Utf8 ["days15"; "days2"])].

Definition iso_frame : Polars.DataFrame :=
  [("Published", Polars.Utf8 ["15 Mar2023"; "2023-03-15"]);
   ("Traded", Polars.Utf8 ["28 Feb2023"; "31 Mar2023"])].

End Sample.

(** ** More sites, for the examples of the further properties *)

Module Fixture.

(** A first page that announces [count] pages. *)
Definition listing (count : string) : node :=
  Tag "[document]" []
    [Tag "p" ["hidden"; "leading-7"; "sm:block"]
       [Text "Page "; Tag "b" [] [Text "1"]; Text " of "; Tag "b" [] [Text count]]].

(** The sample site with the document [second] as page 2
    ([None]: the request for page 2 fails). *)
Definition site (second : option node) (u : string) : option node :=
  if String.eqb u "https://www.capitoltrades.com/trades?page=2" then second
  else Sample.http_get u.

(** The documents of the pages of [site (Some second)]. *)
Definition pages (second : node) (p : Z) : node :=
  if (p =? 1)%Z then Sample.page1
  else if (p =? 2)%Z then second
  else Sample.page3.

(** Three pages whose rows all have three cells. *)
Definition tidy1 : node := Sample.page ["A"; "B"; "Actions"] [["x"; " y "; "z"]].
Definition tidy2 : node := Sample.page ["A"; "B"; "Actions"] [["p"; "q"; "r"]].
Definition tidy3 : node :=
  Sample.page ["A"; "B"; "Actions"] [["u"; "v"; "w"]; ["a"; "b"; "c"]].

(** As [tidy2] under other column names. *)
Definition tidy_renamed : node := Sample.page ["X"; "Y"; "Actions"] [["p"; "q"; "r"]].

(** A site of three pages, [tidy1], [second] and [tidy3]
    ([None]: the request for page 2 fails). *)
Definition tidy_site (second : option node) (u : string) : option node :=
  if String.eqb u "https://www.capitoltrades.com/trades" then Some tidy1
  else if String.eqb u "https://www.capitoltrades.com/trades?page=1" then Some tidy1
  else if String.eqb u "https://www.capitoltrades.com/trades?page=2" then second
  else if String.eqb u "https://www.capitoltrades.com/trades?page=3" then Some tidy3
  else None.

Definition tidy_pages (second : node) (p : Z) : node :=
  if (p =? 1)%Z then tidy1
  else if (p =? 2)%Z then second
  else tidy3.

(** A site that is down. *)
Definition down (u : string) : option node := None.

(** A site whose listing announces no page. *)
Definition empty_site (u : string) : option node := Some (listing "0").

(** A site whose first page of trades has no table. *)
Definition bare_site (u : string) : option node :=
  if String.eqb u "https://www.capitoltrades.com/trades" then Some (listing "2")
  else Some no_table_page.

End Fixture.

(** The fetches of a run over [n] pages as the interface section of the
    specification lists them: the listing itself for page 1, then the pages 2
    to [n] by query parameter. *)
Definition fetches_as_listed (n : Z) : list string :=
  "https://www.capitoltrades.com/trades"
  :: map (fun p => ("https://www.capitoltrades.com/trades?page=" ++ format_int p)%string)
         (range 2 (n + 1)).

(** * Properties *)

(** ** Strings *)

Example split_en_dash : PyStr.split en_dash "1K–15M" = ["1K"; "15M"].
Proof. reflexivity. Qed.

Example split_repeated : PyStr.split "ab" "xabyabab" = ["x"; "y"; ""; ""].
Proof. reflexivity. Qed.

Example replace_every : PyStr.replace "ab" "Z" "xabyababa" = "xZyZZa".
Proof. reflexivity. Qed.

Example strip_both_ends : strip "  15 Mar 2023 " = "15 Mar 2023".
Proof. reflexivity. Qed.

Lemma append_empty_r (s : string) : (s ++ "")%string = s.
Proof. induction s as [|c s IH]; simpl; [reflexivity | now rewrite IH]. Qed.

Lemma append_assoc (s t u : string) : ((s ++ t) ++ u = s ++ (t ++ u))%string.
Proof. induction s as [|c s IH]; simpl; [reflexivity | now rewrite IH]. Qed.

Lemma all_chars_app (p : ascii -> bool) (s t : string) :
  all_chars p (s ++ t)%string = all_chars p s && all_chars p t.
Proof.
  induction s as [|c s IH]; simpl; [reflexivity|].
  now rewrite IH, andb_assoc.
Qed.

Lemma all_chars_weaken (p q : ascii -> bool) (s : string) :
  (forall c, p c = true -> q c = true) ->
  all_chars p s = true -> all_chars q s = true.
Proof.
  intros Hpq. induction s as [|c s IH]; simpl; [easy|].
  intros H. apply andb_true_iff in H as [Hc Hs].
  now rewrite (Hpq _ Hc), IH.
Qed.

Lemma prefix_head_neq (c d : ascii) (p s : string) :
  Ascii.eqb d c = false -> prefix (String c p) (String d s) = false.
Proof.
  intros H. simpl. destruct (ascii_dec c d) as [->|]; [|reflexivity].
  now rewrite Ascii.eqb_refl in H.
Qed.

Lemma rev_string_acc (s acc : string) :
  PyStr.rev_string acc s = (PyStr.rev_string "" s ++ acc)%string.
Proof.
  revert acc. induction s as [|c s IH]; intros acc; simpl; [reflexivity|].
  rewrite (IH (String c acc)), (IH (String c "")), append_assoc. reflexivity.
Qed.

Lemma rev_string_twice (s cur : string) :
  PyStr.rev_string "" (PyStr.rev_string cur s) = (PyStr.rev_string "" cur ++ s)%string.
Proof.
  revert cur. induction s as [|c s IH]; intros cur; simpl.
  - now rewrite append_empty_r.
  - rewrite IH. simpl. rewrite (rev_string_acc cur (String c "")), append_assoc.
    reflexivity.
Qed.

Section Absent.

(** [ch] does not occur in the strings scanned. *)
Variable ch : ascii.

Lemma contains_absent (rest s : string) :
  all_chars (other_than ch) s = true -> PyStr.contains (String ch rest) s = false.
Proof.
  induction s as [|c s IH]; simpl; [reflexivity|].
  intros H. apply andb_true_iff in H as [Hc Hs].
  apply negb_true_iff in Hc.
  destruct (ascii_dec ch c) as [->|_].
  - now rewrite Ascii.eqb_refl in Hc.
  - simpl. now apply IH.
Qed.

Lemma contains_last (s : string) :
  PyStr.contains (String ch "") (s ++ String ch "")%string = true.
Proof.
  induction s as [|c s IH].
  - simpl. destruct (ascii_dec ch ch); [reflexivity | congruence].
  - change (prefix (String ch "") (String c (s ++ String ch "")%string)
            || PyStr.contains (String ch "") (s ++ String ch "")%string = true).
    rewrite IH. apply orb_true_r.
Qed.

Lemma replace_absent (new s : string) :
  all_chars (other_than ch) s = true -> PyStr.replace (String ch "") new s = s.
Proof.
  unfold PyStr.replace. induction s as [|c s IH]; [reflexivity|].
  intros H. simpl in H. apply andb_true_iff in H as [Hc Hs].
  apply negb_true_iff in Hc.
  cbn [PyStr.replace_from]. rewrite (prefix_head_neq _ _ _ _ Hc), IH by assumption.
  reflexivity.
Qed.

Lemma replace_last (s : string) :
  all_chars (other_than ch) s = true ->
  PyStr.replace (String ch "") "" (s ++ String ch "")%string = s.
Proof.
  unfold PyStr.replace. induction s as [|c s IH].
  - intros _. simpl. destruct (ascii_dec ch ch); [reflexivity | congruence].
  - intros H. simpl in H. apply andb_true_iff in H as [Hc Hs].
    apply negb_true_iff in Hc.
    change ((String c s) ++ String ch "")%string with (String c (s ++ String ch "")%string).
    cbn [PyStr.replace_from]. rewrite (prefix_head_neq _ _ _ _ Hc), IH by assumption.
    reflexivity.
Qed.

Lemma split_absent (rest s cur : string) :
  all_chars (other_than ch) s = true ->
  PyStr.split_from (String ch rest) s cur 0 = [(PyStr.rev_string "" cur ++ s)%string].
Proof.
  revert cur. induction s as [|c s IH]; intros cur H.
  - simpl. now rewrite append_empty_r.
  - simpl in H. apply andb_true_iff in H as [Hc Hs].
    apply negb_true_iff in Hc.
    cbn [PyStr.split_from]. rewrite (prefix_head_neq _ _ _ _ Hc), IH by assumption.
    simpl. rewrite (rev_string_acc cur (String c "")), append_assoc. reflexivity.
Qed.

End Absent.

(** ** parse_size *)

Lemma decimal_char_other (c : ascii) :
  decimal_char c = true ->
  negb (Ascii.eqb c "K") = true /\ negb (Ascii.eqb c "M") = true
  /\ negb (Ascii.eqb c (ascii_of_nat 226)) = true.
Proof.
  destruct c as [[] [] [] [] [] [] [] []]; vm_compute; intuition congruence.
Qed.

Lemma read_decimal_chars (s : string) :
  forall seen mant frac ndig r,
    read_decimal s seen mant frac ndig = Some r -> all_chars decimal_char s = true.
Proof.
  induction s as [|c s IH]; intros seen mant frac ndig r H; [reflexivity|].
  simpl in H. unfold decimal_char. simpl.
  destruct (is_digit c) eqn:Hd; simpl.
  - eapply IH; eassumption.
  - destruct (Ascii.eqb c ".") eqn:Hdot; simpl in *; [|discriminate].
    destruct seen; simpl in H; [discriminate|]. eapply IH; eassumption.
Qed.

Lemma is_decimal_chars (s : string) :
  is_decimal s = true -> all_chars decimal_char s = true.
Proof.
  unfold is_decimal. destruct (read_decimal s false 0 0 0) eqn:H; [|discriminate].
  intros _. eapply read_decimal_chars; eassumption.
Qed.

Lemma split_at_en_dash (x y cur : string) :
  all_chars (other_than (ascii_of_nat 226)) x = true ->
  PyStr.split_from en_dash (x ++ en_dash ++ y)%string cur 0
  = (PyStr.rev_string "" cur ++ x)%string :: PyStr.split_from en_dash y "" 0.
Proof.
  revert cur. induction x as [|c x IH]; intros cur H.
  - cbn -[PyStr.rev_string].
    replace (prefix "" y) with true by (destruct y; reflexivity).
    now rewrite append_empty_r.
  - simpl in H. apply andb_true_iff in H as [Hc Hx].
    apply negb_true_iff in Hc.
    change (String c x ++ en_dash ++ y)%string with (String c (x ++ en_dash ++ y)%string).
    cbn [PyStr.split_from]. unfold en_dash at 1.
    rewrite (prefix_head_neq _ _ _ _ Hc). fold en_dash. rewrite IH by assumption.
    simpl. rewrite (rev_string_acc cur (String c "")), append_assoc. reflexivity.
Qed.

Lemma suffix_text_chars (x : suffix) :
  all_chars (other_than (ascii_of_nat 226)) (suffix_text x) = true.
Proof. destruct x; reflexivity. Qed.

Lemma split_range_text (a b : string) (sa sb : suffix) :
  is_decimal a = true -> is_decimal b = true ->
  PyStr.split en_dash (range_text a sa b sb)
  = [(a ++ suffix_text sa)%string; (b ++ suffix_text sb)%string].
Proof.
  intros Ha Hb. unfold PyStr.split, range_text.
  assert (Hx : forall s x, is_decimal s = true ->
            all_chars (other_than (ascii_of_nat 226))
                      (s ++ suffix_text x)%string = true).
  { intros s x Hs. rewrite all_chars_app, suffix_text_chars, andb_true_r.
    apply all_chars_weaken with (p := decimal_char).
    - intros c Hc. apply (decimal_char_other c Hc).
    - now apply is_decimal_chars. }
  rewrite split_at_en_dash by now apply Hx.
  unfold en_dash. rewrite split_absent by now apply Hx.
  reflexivity.
Qed.

Section ToNumber.

Variable F : Type.
Variable float : string -> option F.
Variable fmul_int : F -> Z -> F.

Lemma to_number_bound (a : string) (sa : suffix) :
  is_decimal a = true ->
  to_number F float fmul_int (a ++ suffix_text sa)%string
  = scaled_bound F float fmul_int a sa.
Proof.
  intros Ha. apply is_decimal_chars in Ha.
  assert (HK : all_chars (other_than "K") a = true).
  { revert Ha. apply all_chars_weaken. intros c Hc. apply (decimal_char_other c Hc). }
  assert (HM : all_chars (other_than "M") a = true).
  { revert Ha. apply all_chars_weaken. intros c Hc. apply (decimal_char_other c Hc). }
  unfold to_number, scaled_bound. destruct sa; simpl suffix_text.
  - rewrite append_empty_r.
    rewrite (contains_absent "K" "" a HK), (contains_absent "M" "" a HM).
    destruct (float a); reflexivity.
  - rewrite (contains_last "K" a), (replace_last "K" a HK).
    destruct (float a); reflexivity.
  - rewrite (contains_absent "K" "" (a ++ "M")%string)
      by (rewrite all_chars_app, HK; reflexivity).
    rewrite (contains_last "M" a), (replace_last "M" a HM).
    destruct (float a); reflexivity.
Qed.

End ToNumber.

(** C1.  For decimal bounds [a] and [b], each with an optional suffix K or M
    and separated by an en-dash, [parse_size] with [minimum_val = True] returns
    [float(a)] scaled by the suffix of [a] (K: 1,000; M: 1,000,000) and with
    [minimum_val = False] returns [float(b)] scaled by the suffix of [b].  On
    "1K–15M" the two values are 1,000 and 15,000,000. *)
Theorem parse_size_valid_range
    (F : Type) (float : string -> option F) (fmul_int : F -> Z -> F)
    (a b : string) (sa sb : suffix) :
  is_decimal a = true ->
  is_decimal b = true ->
  parse_size F float fmul_int (range_text a sa b sb) true
    = scaled_bound F float fmul_int a sa
  /\ parse_size F float fmul_int (range_text a sa b sb) false
    = scaled_bound F float fmul_int b sb
  /\ Exact.parse_size "1K–15M" true = Ok 1000%Q
  /\ Exact.parse_size "1K–15M" false = Ok 15000000%Q.
Proof.
  intros Ha Hb. unfold parse_size.
  rewrite (split_range_text a b sa sb Ha Hb).
  repeat split; try reflexivity; now apply to_number_bound.
Qed.

Lemma parse_size_valid_range_witness :
  range_text "1" SuffixK "15" SuffixM = "1K–15M"
  /\ Exact.parse_size (range_text "1" SuffixK "15" SuffixM) true = Ok 1000%Q
  /\ Exact.parse_size (range_text "1" SuffixK "15" SuffixM) false = Ok 15000000%Q.
Proof.
  split; [reflexivity|].
  destruct (parse_size_valid_range Q Exact.float Exact.fmul_int
              "1" "15" SuffixK SuffixM eq_refl eq_refl) as (H1 & H2 & _).
  split; [exact H1 | exact H2].
Defined.

(** ** scrape_table *)

(** The two-page fixture of the specification: headers A, B, Actions, one row
    x, y, z on the first page and one row p, q, r on the second. *)
Example scrape_two_pages :
  let p1 := Sample.page ["A"; "B"; "Actions"] [["x"; "y"; "z"]] in
  let p2 := Sample.page ["A"; "B"; "Actions"] [["p"; "q"; "r"]] in
  bind (scrape_table p1 None)
       (fun '(rows1, headers) =>
          bind (scrape_table p2 (Some headers))
               (fun '(rows2, headers) => Ok (rows1 ++ rows2, headers)))
  = Ok ([["x"; "y"]; ["p"; "q"]], ["A"; "B"]).
Proof. reflexivity. Qed.

Lemma table_rows_app (xs ys : list node) :
  table_rows (xs ++ ys) = table_rows xs ++ table_rows ys.
Proof.
  induction xs as [|x xs IH]; simpl; [reflexivity|].
  destruct (row_values x); simpl; now rewrite IH.
Qed.

Lemma table_rows_filter_map (trs : list node) :
  table_rows trs
  = map (fun tr => but_last (cell_texts (Soup.find_all "td" tr)))
        (filter (fun tr => (0 <? List.length (Soup.find_all "td" tr))%nat) trs).
Proof.
  induction trs as [|tr trs IH]; simpl; [reflexivity|].
  unfold row_values. fold (cell_texts (Soup.find_all "td" tr)).
  destruct (0 <? List.length (Soup.find_all "td" tr))%nat; simpl; now rewrite IH.
Qed.

Lemma but_last_length {A : Type} (xs : list A) :
  List.length (but_last xs) = (List.length xs - 1)%nat.
Proof.
  unfold but_last. induction xs as [|x [|y xs] IH]; simpl in *; try reflexivity.
  rewrite IH. lia.
Qed.

Lemma scrape_table_with_headers (soup : node) (hs : list string) :
  scrape_table soup (Some hs) = Ok (page_rows soup, hs).
Proof. reflexivity. Qed.

Lemma scrape_table_first (soup t : node) :
  trades_table soup = Some t ->
  scrape_table soup None
  = Ok (page_rows soup, but_last (cell_texts (Soup.find_all "th" t))).
Proof. intros H. unfold scrape_table, page_rows. rewrite H. reflexivity. Qed.

(** C3.  On a document without the trades table, [scrape_table] given a header
    sequence returns it with no rows; given [headers = None] it raises
    AttributeError, from [get_table_headers(None)], instead of returning. *)
Theorem scrape_table_absent_table (soup : node) :
  trades_table soup = None ->
  (forall hs, scrape_table soup (Some hs) = Ok ([], hs))
  /\ scrape_table soup None = Raise AttributeError.
Proof.
  intros H. unfold scrape_table. rewrite H. split; reflexivity.
Qed.

Lemma scrape_table_absent_table_witness :
  trades_table no_table_page = None
  /\ scrape_table no_table_page (Some ["Politician"]) = Ok ([], ["Politician"])
  /\ scrape_table no_table_page None = Raise AttributeError.
Proof.
  split; [reflexivity|].
  destruct (scrape_table_absent_table no_table_page eq_refl) as [H1 H2].
  split; [apply H1 | exact H2].
Defined.

(** C6.  When the trades table has N header cells, the header sequence that
    [scrape_table] derives is the trimmed text of all of them but the last,
    of length N - 1 (none when N = 0); the rows are, for every [tr] with a
    data cell and in order, the trimmed text of all its cells but the last,
    whether a header sequence was supplied or not. *)
Theorem scrape_table_drops_trailing_column (soup t : node) (n : nat) :
  trades_table soup = Some t ->
  List.length (Soup.find_all "th" t) = n ->
  let rows :=
    map (fun tr => but_last (cell_texts (Soup.find_all "td" tr)))
        (filter (fun tr => (0 <? List.length (Soup.find_all "td" tr))%nat)
                (Soup.find_all "tr" t)) in
  exists headers,
    scrape_table soup None = Ok (rows, headers)
    /\ headers = but_last (cell_texts (Soup.find_all "th" t))
    /\ List.length headers = (n - 1)%nat
    /\ (forall hs, scrape_table soup (Some hs) = Ok (rows, hs))
    /\ (forall tr, In tr (Soup.find_all "tr" t) ->
        Soup.find_all "td" tr <> [] ->
        In (but_last (cell_texts (Soup.find_all "td" tr))) rows
        /\ List.length (but_last (cell_texts (Soup.find_all "td" tr)))
           = (List.length (Soup.find_all "td" tr) - 1)%nat).
Proof.
  intros Ht Hn rows.
  assert (Hrows : page_rows soup = rows).
  { unfold page_rows. rewrite Ht. apply table_rows_filter_map. }
  exists (but_last (cell_texts (Soup.find_all "th" t))).
  split; [|split; [|split; [|split]]].
  - rewrite (scrape_table_first soup t Ht), Hrows. reflexivity.
  - reflexivity.
  - rewrite but_last_length. unfold cell_texts. now rewrite length_map, Hn.
  - intros hs. now rewrite scrape_table_with_headers, Hrows.
  - intros tr Hin Hcells. split.
    + unfold rows.
      apply (in_map (fun tr => but_last (cell_texts (Soup.find_all "td" tr)))).
      apply filter_In. split; [assumption|].
      destruct (Soup.find_all "td" tr); [congruence | reflexivity].
    + rewrite but_last_length. unfold cell_texts. now rewrite length_map.
Qed.

Lemma scrape_table_drops_trailing_column_witness :
  scrape_table Sample.page1 None = Ok ([["x"; "y"]; []], ["A"; "B"])
  /\ scrape_table Sample.page2 (Some ["A"; "B"]) = Ok ([["p"; "q"]], ["A"; "B"]).
Proof.
  split.
  - destruct (scrape_table_drops_trailing_column Sample.page1
                (Sample.table ["A"; "B"; "Actions"] [["x"; " y "; "z"]; ["only"]])
                3 eq_refl eq_refl) as (headers & Hrun & Hh & _).
    rewrite Hrun, Hh. reflexivity.
  - destruct (scrape_table_drops_trailing_column Sample.page2
                (Sample.table ["A"; "B"; "Actions"] [["p"; "q"; "r"]])
                3 eq_refl eq_refl) as (headers & _ & _ & _ & Hrun & _).
    rewrite Hrun. reflexivity.
Defined.

(** C10.  A [tr] of the trades table with exactly one data cell is kept, as the
    empty sequence and at its place among the rows, whatever the [headers]
    argument. *)
Theorem scrape_table_single_cell_row
    (soup t tr cell : node) (before after : list node) :
  trades_table soup = Some t ->
  Soup.find_all "tr" t = before ++ tr :: after ->
  Soup.find_all "td" tr = [cell] ->
  row_values tr = Some []
  /\ forall headers, exists hs,
       scrape_table soup headers
       = Ok (table_rows before ++ [] :: table_rows after, hs).
Proof.
  intros Ht Htrs Hcell.
  assert (Hrow : row_values tr = Some []).
  { unfold row_values. rewrite Hcell. reflexivity. }
  split; [exact Hrow|].
  assert (Hrows : page_rows soup = table_rows before ++ [] :: table_rows after).
  { unfold page_rows. rewrite Ht, Htrs, table_rows_app. simpl. now rewrite Hrow. }
  intros [hs|].
  - exists hs. now rewrite scrape_table_with_headers, Hrows.
  - eexists. rewrite (scrape_table_first soup t Ht), Hrows. reflexivity.
Qed.

Lemma scrape_table_single_cell_row_witness :
  exists hs, scrape_table Sample.page1 None = Ok ([["x"; "y"]; []], hs).
Proof.
  destruct (scrape_table_single_cell_row Sample.page1
              (Sample.table ["A"; "B"; "Actions"] [["x"; " y "; "z"]; ["only"]])
              (Tag "tr" [] [Sample.td "only"]) (Sample.td "only")
              [Tag "tr" [] (map Sample.th ["A"; "B"; "Actions"]);
               Tag "tr" [] (map Sample.td ["x"; " y "; "z"])]
              [] eq_refl eq_refl eq_refl) as [_ Hrun].
  destruct (Hrun None) as [hs Hhs]. exists hs. exact Hhs.
Defined.

(** ** The frame built from rows *)

Lemma no_repeat_NoDup (names : list string) :
  NoDup names -> Polars.no_repeat names = true.
Proof.
  induction 1 as [|name rest Hin _ IH]; [reflexivity|].
  cbn [Polars.no_repeat]. rewrite IH, andb_true_r. apply negb_true_iff.
  destruct (existsb (String.eqb name) rest) eqn:E; [|reflexivity].
  apply existsb_exists in E as (x & Hx & Heq).
  apply String.eqb_eq in Heq. now subst.
Qed.

Lemma data_frame_fits (rows : list (list string)) (names : list string) :
  NoDup names ->
  (forall row, In row rows -> List.length row = List.length names) ->
  Polars.data_frame rows (Some names) = Ok (Polars.columns_from 0 names rows).
Proof.
  intros Hnd Hfit. unfold Polars.data_frame.
  replace (forallb _ rows) with true.
  - now rewrite no_repeat_NoDup.
  - symmetry. apply forallb_forall. intros row Hrow.
    apply Nat.eqb_eq. now apply Hfit.
Qed.

Lemma data_frame_ragged (rows : list (list string)) (names row : list string) :
  In row rows ->
  List.length row <> List.length names ->
  Polars.data_frame rows (Some names) = Raise ShapeError.
Proof.
  intros Hin Hlen. unfold Polars.data_frame.
  destruct (forallb _ rows) eqn:E; [|reflexivity].
  rewrite forallb_forall in E. apply E in Hin. apply Nat.eqb_eq in Hin.
  contradiction.
Qed.

Lemma column_names_columns_from (names : list string) (rows : list (list string)) :
  forall j, column_names (Polars.columns_from j names rows) = names.
Proof.
  unfold column_names. induction names as [|name rest IH]; intros j; [reflexivity|].
  cbn [Polars.columns_from map fst]. now rewrite IH.
Qed.

Lemma height_columns_from (names : list string) (rows : list (list string)) (j : nat) :
  names <> [] -> Polars.height (Polars.columns_from j names rows) = List.length rows.
Proof.
  destruct names as [|name rest]; [congruence|]. intros _.
  cbn. unfold Polars.column. apply length_map.
Qed.

Lemma col_columns_from (names : list string) (rows : list (list string)) :
  forall j i name,
    NoDup names ->
    nth_error names i = Some name ->
    Polars.col name (Polars.columns_from j names rows)
    = Ok (Polars.Utf8 (Polars.column (j + i) rows)).
Proof.
  induction names as [|first rest IH]; intros j i name Hnd Hi.
  - destruct i; discriminate.
  - inversion Hnd as [|x xs Hnotin Hrest]; subst.
    cbn [Polars.columns_from Polars.col]. destruct i as [|i].
    + injection Hi as <-. now rewrite String.eqb_refl, Nat.add_0_r.
    + cbn [nth_error] in Hi.
      assert (Hne : String.eqb first name = false).
      { apply String.eqb_neq. intros ->. apply Hnotin.
        eapply nth_error_In; eassumption. }
      rewrite Hne, (IH (S j) i name Hrest Hi). now rewrite Nat.add_succ_r.
Qed.

(** ** number_of_pages and scrape_trades *)

Lemma range_In (lo hi p : Z) : In p (range lo hi) <-> (lo <= p < hi)%Z.
Proof.
  unfold range. rewrite in_map_iff. split.
  - intros (i & <- & Hi). apply in_seq in Hi. lia.
  - intros H. exists (Z.to_nat (p - lo)). split; [lia|].
    apply in_seq. lia.
Qed.

Lemma range_head (lo hi : Z) :
  (lo < hi)%Z -> range lo hi = lo :: range (lo + 1) hi.
Proof.
  intros H. unfold range.
  replace (Z.to_nat (hi - lo)) with (S (Z.to_nat (hi - (lo + 1)))) by lia.
  cbn [seq map]. f_equal; [lia|].
  rewrite <- seq_shift, map_map. apply map_ext. intros i. lia.
Qed.

Lemma range_from_one (n : Z) :
  range 1 (n + 1) = map Z.of_nat (seq 1 (Z.to_nat n)).
Proof.
  unfold range. replace (Z.to_nat (n + 1 - 1)) with (Z.to_nat n) by lia.
  rewrite <- seq_shift, map_map. apply map_ext. intros i. lia.
Qed.

Lemma range_length (lo hi : Z) : List.length (range lo hi) = Z.to_nat (hi - lo).
Proof. unfold range. now rewrite length_map, length_seq. Qed.

Section ScraperProperties.

Variable http_get : string -> option node.
Variable int_of_str : string -> option Z.

(** The document served for each page index. *)
Variable docs : Z -> node.

Lemma scrape_page_ok (page : Z) (acc_rows : list (list string))
    (headers : option (list string)) (rows : list (list string))
    (hs : list string) (log : list string) :
  http_get (page_url page) = Some (docs page) ->
  scrape_table (docs page) headers = Ok (rows, hs) ->
  scrape_page http_get page (acc_rows, headers) log
  = (Ok (acc_rows ++ rows, Some hs), log ++ [page_url page]).
Proof.
  intros Hget Htab. unfold scrape_page, fbind, get_html_soup, lift, fret.
  rewrite Hget. cbn [of_option]. rewrite Htab.
  destruct rows as [|first rest].
  - now rewrite app_nil_r.
  - destruct (negb (List.length first =? List.length hs)%nat); reflexivity.
Qed.

Lemma scrape_pages_with_headers (pages : list Z) :
  forall (acc_rows : list (list string)) (hs : list string) (log : list string),
    (forall p, In p pages -> http_get (page_url p) = Some (docs p)) ->
    scrape_pages http_get pages (acc_rows, Some hs) log
    = (Ok (acc_rows ++ List.concat (map (fun p => page_rows (docs p)) pages), Some hs),
       log ++ map page_url pages).
Proof.
  induction pages as [|page rest IH]; intros acc_rows hs log Hget.
  - simpl. unfold fret. now rewrite !app_nil_r.
  - cbn [scrape_pages]. unfold fbind.
    rewrite (scrape_page_ok page acc_rows (Some hs) (page_rows (docs page)) hs log).
    + rewrite IH by (intros p Hp; apply Hget; now right).
      cbn [map List.concat]. now rewrite <- !app_assoc.
    + apply Hget. now left.
    + apply scrape_table_with_headers.
Qed.

Lemma scrape_pages_from_start (pages : list Z) (log : list string) :
  (forall p, In p pages -> http_get (page_url p) = Some (docs p)) ->
  (forall p, hd_error pages = Some p -> trades_table (docs p) <> None) ->
  scrape_pages http_get pages ([], None) log
  = (Ok (List.concat (map (fun p => page_rows (docs p)) pages), first_headers docs pages),
     log ++ map page_url pages).
Proof.
  intros Hget Hfirst. destruct pages as [|page rest].
  - simpl. unfold fret. now rewrite app_nil_r.
  - destruct (trades_table (docs page)) as [t|] eqn:Ht.
    2:{ now destruct (Hfirst page eq_refl). }
    cbn [scrape_pages]. unfold fbind.
    rewrite (scrape_page_ok page [] None (page_rows (docs page))
               (but_last (cell_texts (Soup.find_all "th" t))) log).
    + rewrite scrape_pages_with_headers by (intros p Hp; apply Hget; now right).
      cbn [map List.concat first_headers app]. rewrite Ht. cbn [option_map].
      now rewrite <- app_assoc.
    + apply Hget. now left.
    + now apply scrape_table_first.
Qed.

(** The run of [scrape_trades] on a site that announces [n] pages and serves
    each of them, the first with its table. *)
Lemma scrape_trades_run (first : node) (n : Z) (log : list string) :
  http_get url = Some first ->
  py_int int_of_str (total_pages_text first) = Ok n ->
  (forall p, (1 <= p <= n)%Z -> http_get (page_url p) = Some (docs p)) ->
  ((1 <= n)%Z -> trades_table (docs 1%Z) <> None) ->
  scrape_trades http_get int_of_str log
  = (Polars.data_frame
       (List.concat (map (fun p => page_rows (docs p)) (range 1 (n + 1))))
       (first_headers docs (range 1 (n + 1))),
     (log ++ [url]) ++ map page_url (range 1 (n + 1))).
Proof.
  intros Hfirst Hn Hget Htab.
  unfold scrape_trades, number_of_pages, fbind, get_html_soup, lift.
  rewrite Hfirst. cbn [of_option]. rewrite Hn.
  rewrite scrape_pages_from_start.
  - destruct (Polars.data_frame _ _); reflexivity.
  - intros p Hp. apply range_In in Hp. apply Hget. lia.
  - intros p Hp. destruct (Z_lt_le_dec n 1) as [Hlt|Hle].
    + assert (Hnil : range 1 (n + 1) = []).
      { apply length_zero_iff_nil. rewrite range_length. lia. }
      rewrite Hnil in Hp. discriminate.
    + rewrite range_head in Hp by lia. injection Hp as <-. now apply Htab.
Qed.

(** The header sequence of a run is missing only when no page is scraped. *)
Lemma first_headers_none (n : Z) :
  ((1 <= n)%Z -> trades_table (docs 1%Z) <> None) ->
  first_headers docs (range 1 (n + 1)) = None ->
  range 1 (n + 1) = [].
Proof.
  intros Htab H. destruct (Z_lt_le_dec n 1) as [Hlt|Hle].
  - apply length_zero_iff_nil. rewrite range_length. lia.
  - rewrite range_head in H by lia. cbn [first_headers] in H.
    destruct (trades_table (docs 1%Z)); [discriminate|].
    now destruct (Htab Hle).
Qed.

End ScraperProperties.




(** C4.  When the first page has no descriptive paragraph, or the paragraph
    has fewer than two bold runs, [number_of_pages] raises (TypeError, from
    [int(None)]) and returns no page count; the error reaches the caller of
    [scrape_trades], which has then requested the listing only. *)
Theorem number_of_pages_indeterminate
    (http_get : string -> option node) (int_of_str : string -> option Z)
    (soup : node) (log : list string) :
  http_get url = Some soup ->
  (Soup.find "p" "hidden leading-7 sm:block" soup = None
   \/ exists page_info,
        Soup.find "p" "hidden leading-7 sm:block" soup = Some page_info
        /\ (List.length (Soup.find_all "b" page_info) < 2)%nat) ->
  number_of_pages http_get int_of_str log = (Raise TypeError, log ++ [url])
  /\ scrape_trades http_get int_of_str log = (Raise TypeError, log ++ [url]).
Proof.
  intros Hget Hdoc.
  assert (Htext : total_pages_text soup = None).
  { unfold total_pages_text. destruct Hdoc as [-> | (page_info & -> & Hlen)].
    - reflexivity.
    - destruct (1 <? List.length (Soup.find_all "b" page_info))%nat eqn:E;
        [|reflexivity].
      apply Nat.ltb_lt in E. lia. }
  assert (Hnum : number_of_pages http_get int_of_str log
                 = (Raise TypeError, log ++ [url])).
  { unfold number_of_pages, fbind, get_html_soup, lift.
    rewrite Hget. cbn [of_option]. now rewrite Htext. }
  split; [exact Hnum|].
  unfold scrape_trades, fbind. now rewrite Hnum.
Qed.

Lemma number_of_pages_indeterminate_witness :
  number_of_pages (fun _ => Some no_table_page) Sample.int_of_str []
  = (Raise TypeError, ["https://www.capitoltrades.com/trades"]).
Proof.
  apply (number_of_pages_indeterminate (fun _ => Some no_table_page)
           Sample.int_of_str no_table_page []).
  - reflexivity.
  - left. reflexivity.
Defined.




(** ** clean_dataframe *)

Lemma prefix_cons (a b : ascii) (p s : string) :
  prefix (String a p) (String b s) = Ascii.eqb a b && prefix p s.
Proof.
  simpl. destruct (ascii_dec a b) as [->|Hne].
  - now rewrite Ascii.eqb_refl.
  - apply Ascii.eqb_neq in Hne. now rewrite Hne.
Qed.

Lemma prefix_empty (s : string) : prefix "" s = true.
Proof. now destruct s. Qed.

Lemma traverse_fails {A B : Type} (f : A -> option B) (xs : list A) (x : A) :
  In x xs -> f x = None -> Polars.traverse f xs = Raise ComputeError.
Proof.
  induction xs as [|y xs IH]; intros Hin Hx; [contradiction|].
  simpl. destruct Hin as [->|Hin].
  - now rewrite Hx.
  - destruct (f y); [|reflexivity]. now rewrite IH.
Qed.

Lemma traverse_error {A B : Type} (f : A -> option B) (xs : list A) (e : exn) :
  Polars.traverse f xs = Raise e -> e = ComputeError.
Proof.
  induction xs as [|x xs IH]; simpl; [discriminate|].
  destruct (f x); [|congruence].
  destruct (Polars.traverse f xs); simpl; [discriminate|].
  intros H. apply IH. congruence.
Qed.

Lemma traverse_all {A B : Type} (f : A -> option B) (xs : list A) (ys : list B) :
  map f xs = map Some ys -> Polars.traverse f xs = Ok ys.
Proof.
  revert ys. induction xs as [|x xs IH]; intros [|y ys] H; try discriminate.
  - reflexivity.
  - simpl in *. injection H as Hx Hxs. rewrite Hx, (IH ys Hxs). reflexivity.
Qed.

Lemma col_with_column_same (name : string) (s : Polars.Series) (df : Polars.DataFrame) :
  Polars.col name (Polars.with_column name s df) = Ok s.
Proof.
  induction df as [|[n old] df IH]; simpl.
  - now rewrite String.eqb_refl.
  - destruct (String.eqb n name) eqn:E; simpl; rewrite E; [reflexivity | exact IH].
Qed.

Lemma col_with_column_other (name other : string) (s : Polars.Series)
    (df : Polars.DataFrame) :
  String.eqb other name = false ->
  Polars.col name (Polars.with_column other s df) = Polars.col name df.
Proof.
  intros Hne. induction df as [|[n old] df IH]; simpl.
  - now rewrite Hne.
  - destruct (String.eqb n other) eqn:E; simpl.
    + apply String.eqb_eq in E. subst n. now rewrite Hne.
    + destruct (String.eqb n name); [reflexivity | exact IH].
Qed.

(** C7, as the code has it.  Both [Published] and [Traded] are parsed with the
    format "%d %b%Y": a day, a blank, an abbreviated month name and a year,
    nothing standing between the month and the year in the format.
    "15 Mar2023" is read as 2023-03-15, "2023-03-15" is rejected, and one
    value that the parser rejects for this format, in either column, makes
    the conversion raise; when every value is accepted the two columns hold
    the dates read. *)
Theorem convert_dates_fixed_pattern
    (df : Polars.DataFrame) (published traded : list string) :
  Polars.col "Published" df = Ok (Polars.Utf8 published) ->
  Polars.col "Traded" df = Ok (Polars.Utf8 traded) ->
  Polars.strftime_items date_format
    = Some [Polars.Day; Polars.Space; Polars.ShortMonthName; Polars.Year]
  /\ Polars.strptime date_format "15 Mar2023"
     = Some {| year := 2023; month := 3; day := 15 |}
  /\ Polars.strptime date_format "2023-03-15" = None
  /\ (forall v, In v (published ++ traded) ->
        Polars.strptime date_format v = None ->
        convert_dates df = Raise ComputeError)
  /\ (forall pd td,
        map (Polars.strptime date_format) published = map Some pd ->
        map (Polars.strptime date_format) traded = map Some td ->
        exists df',
          convert_dates df = Ok df'
          /\ Polars.col "Published" df' = Ok (Polars.Datetime pd)
          /\ Polars.col "Traded" df' = Ok (Polars.Datetime td)).
Proof.
  intros Hp Ht. split; [reflexivity|]. split; [reflexivity|].
  split; [reflexivity|]. split.
  - intros v Hin Hv. unfold convert_dates. rewrite Hp, Ht.
    cbn [bind Polars.str_to_datetime].
    apply in_app_or in Hin as [Hin|Hin].
    + now rewrite (traverse_fails _ _ _ Hin Hv).
    + destruct (Polars.traverse (Polars.strptime date_format) published)
        as [ds|e] eqn:Hpub; cbn [bind].
      * now rewrite (traverse_fails _ _ _ Hin Hv).
      * now rewrite (traverse_error _ _ _ Hpub).
  - intros pd td Hpd Htd. unfold convert_dates. rewrite Hp, Ht.
    cbn [bind Polars.str_to_datetime].
    rewrite (traverse_all _ _ _ Hpd), (traverse_all _ _ _ Htd). cbn [bind].
    eexists. split; [reflexivity|]. split.
    + rewrite col_with_column_other by reflexivity. apply col_with_column_same.
    + apply col_with_column_same.
Qed.

Lemma convert_dates_fixed_pattern_witness :
  convert_dates Sample.iso_frame = Raise ComputeError
  /\ exists df',
       convert_dates Sample.frame = Ok df'
       /\ Polars.col "Published" df'
          = Ok (Polars.Datetime [{| year := 2023; month := 3; day := 15 |};
                                 {| year := 2023; month := 4; day := 2 |}]).
Proof.
  split.
  - destruct (convert_dates_fixed_pattern Sample.iso_frame
                ["15 Mar2023"; "2023-03-15"] ["28 Feb2023"; "31 Mar2023"]
                eq_refl eq_refl) as (_ & _ & _ & Hfail & _).
    apply (Hfail "2023-03-15"); [right; left; reflexivity | reflexivity].
  - destruct (convert_dates_fixed_pattern Sample.frame
                ["15 Mar2023"; "2 Apr2023"] ["28 Feb2023"; "31 Mar2023"]
                eq_refl eq_refl) as (_ & _ & _ & _ & Hok).
    destruct (Hok [{| year := 2023; month := 3; day := 15 |};
                   {| year := 2023; month := 4; day := 2 |}]
                  [{| year := 2023; month := 2; day := 28 |};
                   {| year := 2023; month := 3; day := 31 |}]
                  eq_refl eq_refl) as (df' & Hrun & Hpub & _).
    exists df'. split; assumption.
Defined.

(** C7, as stated, fails: the parser reads the format loosely, so values that
    are not a day, a month abbreviation and a four-digit year with nothing
    between month and year are converted and nothing is raised: a year of two
    digits, a blank between month and year, no blank after the day. *)
Lemma convert_dates_accepts_other_shapes :
  worded_date_pattern "15 Mar2023" = true
  /\ worded_date_pattern "15 Mar23" = false
  /\ worded_date_pattern "15 Mar 2023" = false
  /\ worded_date_pattern "15mar2023" = false
  /\ Polars.strptime date_format "15 Mar23"
     = Some {| year := 23; month := 3; day := 15 |}
  /\ Polars.strptime date_format "15 Mar 2023"
     = Some {| year := 2023; month := 3; day := 15 |}
  /\ exists df,
       convert_dates [("Published", Polars.Utf8 ["15 Mar23"; "15 Mar 2023"]);
                      ("Traded", Polars.Utf8 ["15mar2023"; "15 Mar2023"])]
       = Ok df.
Proof.
  repeat split; try reflexivity. eexists. reflexivity.
Qed.

(** C8.  [clean_dataframe] never returns: when the dates are converted, building
    the expressions of the second [with_columns] raises at the one on [Size],
    before the expression on [Filed after] is evaluated on any value, so no
    day count is produced; otherwise the conversion of the dates has raised
    already. *)
Theorem clean_dataframe_raises (df : Polars.DataFrame) :
  (exists e, clean_dataframe df = Raise e)
  /\ (forall df', convert_dates df = Ok df' ->
        clean_dataframe df = Raise ExprApplyError)
  /\ clean_dataframe
       [("Published", Polars.Utf8 ["15 Mar2023"]);
        ("Traded", Polars.Utf8 ["14 Mar2023"]);
        ("Filed after", Polars.Utf8 ["30days"]);
        ("Size", Polars.Utf8 ["1K–15K"])]
     = Raise ExprApplyError.
Proof.
  unfold clean_dataframe. split; [|split].
  - destruct (convert_dates df) as [df'|e];
      [exists ExprApplyError | exists e]; reflexivity.
  - intros df' ->. reflexivity.
  - reflexivity.
Qed.

Lemma clean_dataframe_raises_witness :
  clean_dataframe Sample.frame = Raise ExprApplyError.
Proof.
  destruct (clean_dataframe_raises Sample.frame) as (_ & Hraise & _).
  destruct (convert_dates Sample.frame) as [df'|e] eqn:Hdates.
  - exact (Hraise df' eq_refl).
  - discriminate Hdates.
Defined.

(** The first [with_columns] written with expressions. *)
Lemma convert_dates_with_columns (df : Polars.DataFrame) :
  convert_dates df
  = Polars.with_columns
      [Polars.StrToDatetime (Polars.Col "Published") date_format;
       Polars.StrToDatetime (Polars.Col "Traded") date_format] df.
Proof.
  unfold convert_dates, Polars.with_columns.
  cbn [Polars.eval_all Polars.eval Polars.output_name].
  destruct (bind (Polars.col "Published" df) (Polars.str_to_datetime date_format))
    as [p|e]; [|reflexivity].
  cbn [bind].
  destruct (bind (Polars.col "Traded" df) (Polars.str_to_datetime date_format))
    as [t|e]; reflexivity.
Qed.

(** ** scrape_table on the heap *)

Lemma update_length (h : Heap.heap) :
  forall l o, List.length (Heap.update l o h) = List.length h.
Proof.
  induction h as [|x h IH]; intros [|l] o; simpl; try reflexivity.
  now rewrite IH.
Qed.

Lemma nth_error_update_eq (h : Heap.heap) :
  forall l o, (l < List.length h)%nat -> nth_error (Heap.update l o h) l = Some o.
Proof.
  induction h as [|x h IH]; intros [|l] o Hl; simpl in *; try lia.
  - reflexivity.
  - apply IH. lia.
Qed.

Lemma nth_error_update_neq (h : Heap.heap) :
  forall l l' o, l <> l' -> nth_error (Heap.update l o h) l' = nth_error h l'.
Proof.
  induction h as [|x h IH]; intros [|l] [|l'] o Hne; simpl; try reflexivity.
  - congruence.
  - apply IH. congruence.
Qed.

Lemma update_last (g : Heap.heap) (o o' : Heap.obj) :
  Heap.update (List.length g) o' (g ++ [o]) = g ++ [o'].
Proof. induction g as [|x g IH]; simpl; [reflexivity | now rewrite IH]. Qed.

Lemma nth_error_alloc_new (h : Heap.heap) (o : Heap.obj) :
  nth_error (h ++ [o]) (List.length h) = Some o.
Proof. rewrite nth_error_app2, Nat.sub_diag by lia. reflexivity. Qed.

Lemma nth_error_alloc_old (h : Heap.heap) (o : Heap.obj) (l : Heap.loc) :
  (l < List.length h)%nat -> nth_error (h ++ [o]) l = nth_error h l.
Proof. intros Hl. now apply nth_error_app1. Qed.

Lemma strs_at_some (h : Heap.heap) (l : Heap.loc) (xs : list string) :
  Heap.strs_at h l = Some xs <-> nth_error h l = Some (Heap.StrList xs).
Proof.
  unfold Heap.strs_at. destruct (nth_error h l) as [[ys|rs]|]; split; congruence.
Qed.

Lemma all_some_app {A : Type} (xs ys : list (option A)) (vs ws : list A) :
  Heap.all_some xs = Some vs -> Heap.all_some ys = Some ws ->
  Heap.all_some (xs ++ ys) = Some (vs ++ ws).
Proof.
  revert vs. induction xs as [|[x|] xs IH]; intros vs Hx Hy; simpl in *.
  - injection Hx as <-. exact Hy.
  - destruct (Heap.all_some xs) as [vs'|]; [|discriminate].
    injection Hx as <-. now rewrite (IH vs' eq_refl Hy).
  - discriminate.
Qed.

Lemma all_some_map_ext {A B : Type} (f g : A -> option B) (xs : list A) :
  (forall x v, f x = Some v -> g x = Some v) ->
  forall vs, Heap.all_some (map f xs) = Some vs -> Heap.all_some (map g xs) = Some vs.
Proof.
  intros Hfg. induction xs as [|x xs IH]; intros vs H; simpl in *; [exact H|].
  destruct (f x) as [v|] eqn:Hx; [|discriminate].
  rewrite (Hfg x v Hx).
  destruct (Heap.all_some (map f xs)) as [vs'|]; [|discriminate].
  now rewrite (IH vs' eq_refl).
Qed.

Lemma preserved_app (h ext : Heap.heap) : Heap.preserved h (h ++ ext).
Proof. intros l Hl. now apply nth_error_app1. Qed.

Lemma append_str_last (g : Heap.heap) (acc : list string) (x : string) :
  Heap.append_str (List.length g) x (g ++ [Heap.StrList acc])
  = (Ok tt, g ++ [Heap.StrList (acc ++ [x])]).
Proof.
  unfold Heap.append_str, Heap.sbind, Heap.read.
  rewrite nth_error_alloc_new. cbn [of_option]. now rewrite update_last.
Qed.

(** The loop of [get_table_headers] fills the list just allocated. *)
Lemma headers_loop (ths : list node) :
  forall (g : Heap.heap) (acc : list string),
    Heap.for_each ths
      (fun header => Heap.append_str (List.length g) (strip (Soup.text header)))
      (g ++ [Heap.StrList acc])
    = (Ok tt, g ++ [Heap.StrList (acc ++ cell_texts ths)]).
Proof.
  induction ths as [|th ths IH]; intros g acc.
  - simpl. unfold Heap.ret. now rewrite app_nil_r.
  - cbn [Heap.for_each]. unfold Heap.sbind.
    rewrite append_str_last, IH.
    cbn [cell_texts map]. now rewrite <- app_assoc.
Qed.

Lemma scrape_row_inv (g : Heap.heap) (vals : list (list string))
    (h : Heap.heap) (tr : node) :
  rows_inv g vals h ->
  exists h',
    Heap.scrape_row (List.length g) tr h = (Ok tt, h')
    /\ rows_inv g (vals ++ table_rows [tr]) h'.
Proof.
  intros (Hlen & Hold & rs & Hrows & Hvals).
  unfold Heap.scrape_row, table_rows, row_values.
  fold (cell_texts (Soup.find_all "td" tr)).
  destruct (0 <? List.length (Soup.find_all "td" tr))%nat.
  2:{ exists h. split; [reflexivity|]. rewrite app_nil_r.
      split; [exact Hlen|]. split; [exact Hold|]. now exists rs. }
  set (texts := cell_texts (Soup.find_all "td" tr)).
  set (h1 := h ++ [Heap.StrList texts]).
  set (h2 := h1 ++ [Heap.StrList (but_last texts)]).
  assert (Hlen1 : List.length h1 = S (List.length h)).
  { unfold h1. rewrite length_app. simpl. lia. }
  assert (Hlen2 : List.length h2 = S (List.length h1)).
  { unfold h2. rewrite length_app. simpl. lia. }
  assert (Hrows2 : nth_error h2 (List.length g) = Some (Heap.RowList rs)).
  { unfold h2. rewrite nth_error_alloc_old by lia.
    unfold h1. rewrite nth_error_alloc_old by lia. exact Hrows. }
  exists (Heap.update (List.length g) (Heap.RowList (rs ++ [List.length h1])) h2).
  split.
  - unfold Heap.sbind, Heap.alloc, Heap.slice_but_last, Heap.read.
    fold h1. unfold Heap.sbind, Heap.read.
    unfold h1 at 1. rewrite nth_error_alloc_new. cbn [of_option].
    unfold Heap.alloc. fold h1. fold h2.
    unfold Heap.append_row, Heap.sbind, Heap.read.
    rewrite Hrows2. reflexivity.
  - split; [rewrite update_length; lia|]. split.
    + intros l Hl. rewrite nth_error_update_neq by lia.
      unfold h2. rewrite nth_error_alloc_old by lia.
      unfold h1. rewrite nth_error_alloc_old by lia. now apply Hold.
    + exists (rs ++ [List.length h1]). split.
      * apply nth_error_update_eq. lia.
      * rewrite map_app. apply all_some_app.
        -- revert Hvals. apply all_some_map_ext. intros l v Hv.
           apply strs_at_some in Hv. apply strs_at_some.
           assert (Hl : (l < List.length h)%nat).
           { apply nth_error_Some. congruence. }
           assert (Hne : List.length g <> l).
           { intros <-. congruence. }
           rewrite nth_error_update_neq by exact Hne.
           unfold h2. rewrite nth_error_alloc_old by lia.
           unfold h1. rewrite nth_error_alloc_old by lia. exact Hv.
        -- simpl.
           assert (Hnew : Heap.strs_at
                            (Heap.update (List.length g)
                               (Heap.RowList (rs ++ [List.length h1])) h2)
                            (List.length h1) = Some (but_last texts)).
           { apply strs_at_some. rewrite nth_error_update_neq by lia.
             unfold h2. apply nth_error_alloc_new. }
           now rewrite Hnew.
Qed.

Lemma rows_loop (trs : list node) (g : Heap.heap) :
  forall (vals : list (list string)) (h : Heap.heap),
    rows_inv g vals h ->
    exists h',
      Heap.for_each trs (Heap.scrape_row (List.length g)) h = (Ok tt, h')
      /\ rows_inv g (vals ++ table_rows trs) h'.
Proof.
  induction trs as [|tr trs IH]; intros vals h Hinv.
  - exists h. split; [reflexivity|]. simpl. now rewrite app_nil_r.
  - destruct (scrape_row_inv g vals h tr Hinv) as (h1 & Hrun1 & Hinv1).
    destruct (IH _ _ Hinv1) as (h2 & Hrun2 & Hinv2).
    exists h2. split.
    + cbn [Heap.for_each]. unfold Heap.sbind. now rewrite Hrun1.
    + replace (table_rows (tr :: trs)) with (table_rows [tr] ++ table_rows trs)
        by (rewrite <- table_rows_app; reflexivity).
      now rewrite app_assoc.
Qed.

(** The part of [scrape_table] after the header sequence is known: on a heap
    [g] that holds it at [lh], the call returns [lh] itself and a new list of
    the rows of the page, and leaves [g] untouched. *)
Lemma scrape_table_rows_phase (soup : node) (g : Heap.heap) (lh : Heap.loc)
    (hs : list string) :
  Heap.strs_at g lh = Some hs ->
  let body :=
    Heap.sbind (Heap.alloc (Heap.RowList [])) (fun rows =>
    Heap.sbind (match trades_table soup with
                | Some t => Heap.for_each (Soup.find_all "tr" t) (Heap.scrape_row rows)
                | None => Heap.ret tt
                end) (fun _ => Heap.ret (rows, lh))) in
  Heap.preserved g (snd (body g))
  /\ Heap.observe (body g) = Some (Ok (page_rows soup, hs)).
Proof.
  intros Hhs body.
  assert (Hinv0 : rows_inv g [] (g ++ [Heap.RowList []])).
  { split; [rewrite length_app; simpl; lia|]. split.
    - intros l Hl. now apply nth_error_alloc_old.
    - exists []. split; [apply nth_error_alloc_new | reflexivity]. }
  assert (Hloop : exists h',
             (match trades_table soup with
              | Some t => Heap.for_each (Soup.find_all "tr" t)
                            (Heap.scrape_row (List.length g))
              | None => Heap.ret tt
              end) (g ++ [Heap.RowList []]) = (Ok tt, h')
             /\ rows_inv g (page_rows soup) h').
  { unfold page_rows. destruct (trades_table soup) as [t|].
    - apply (rows_loop (Soup.find_all "tr" t) g [] _ Hinv0).
    - exists (g ++ [Heap.RowList []]). split; [reflexivity | exact Hinv0]. }
  destruct Hloop as (h' & Hrun & Hlen & Hold & rs & Hrows & Hvals).
  assert (Hbody : body g = (Ok (List.length g, lh), h')).
  { unfold body, Heap.sbind, Heap.alloc. rewrite Hrun. reflexivity. }
  rewrite Hbody. split.
  - intros l Hl. now apply Hold.
  - unfold Heap.observe, Heap.rows_at. rewrite Hrows, Hvals.
    assert (Hh : Heap.strs_at h' lh = Some hs).
    { apply strs_at_some. apply strs_at_some in Hhs.
      rewrite Hold; [exact Hhs|]. apply nth_error_Some. congruence. }
    now rewrite Hh.
Qed.

Lemma preserved_trans (h1 h2 h3 : Heap.heap) :
  (List.length h1 <= List.length h2)%nat ->
  Heap.preserved h1 h2 -> Heap.preserved h2 h3 -> Heap.preserved h1 h3.
Proof.
  intros Hlen H12 H23 l Hl. rewrite H23 by lia. now apply H12.
Qed.

Lemma sbind_run {A B : Type} (m : Heap.St A) (k : A -> Heap.St B) (h : Heap.heap) :
  Heap.sbind m k h
  = match m h with
    | (Ok a, h') => k a h'
    | (Raise e, h') => (Raise e, h')
    end.
Proof. reflexivity. Qed.

(** Deriving the header sequence: the list filled by [get_table_headers],
    then its slice. *)
Lemma headers_phase (soup : node) (h : Heap.heap) :
  Heap.sbind (Heap.get_table_headers (trades_table soup)) Heap.slice_but_last h
  = match trades_table soup with
    | Some t =>
        let texts := cell_texts (Soup.find_all "th" t) in
        (Ok (S (List.length h)),
         (h ++ [Heap.StrList texts]) ++ [Heap.StrList (but_last texts)])
    | None => (Raise AttributeError, h ++ [Heap.StrList []])
    end.
Proof.
  rewrite sbind_run. unfold Heap.get_table_headers. rewrite sbind_run.
  unfold Heap.alloc at 1. destruct (trades_table soup) as [t|]; [|reflexivity].
  rewrite sbind_run, (headers_loop (Soup.find_all "th" t) h []). cbn [app].
  unfold Heap.ret, Heap.slice_but_last. rewrite sbind_run. unfold Heap.read.
  rewrite nth_error_alloc_new. cbn [of_option]. unfold Heap.alloc.
  rewrite length_app. cbn [List.length]. now rewrite Nat.add_1_r.
Qed.

(** [Heap.scrape_table] computes what [scrape_table] does on the contents of
    the header list, and changes no object of the heap it starts from. *)
Lemma scrape_table_refines (soup : node) (headers : option Heap.loc) (h : Heap.heap) :
  (forall l, headers = Some l -> exists hs, Heap.strs_at h l = Some hs) ->
  let out := Heap.scrape_table soup headers h in
  Heap.preserved h (snd out)
  /\ Heap.observe out
     = Some (scrape_table soup
               match headers with
               | Some l => Heap.strs_at h l
               | None => None
               end).
Proof.
  intros Hvalid out. unfold out, Heap.scrape_table. rewrite sbind_run.
  destruct headers as [l|].
  - destruct (Hvalid l eq_refl) as [hs Hhs]. rewrite Hhs.
    rewrite scrape_table_with_headers. unfold Heap.ret at 1.
    apply (scrape_table_rows_phase soup h l hs Hhs).
  - rewrite headers_phase.
    destruct (trades_table soup) as [t|] eqn:Ht.
    + rewrite (scrape_table_first soup t Ht). cbv zeta.
      set (texts := cell_texts (Soup.find_all "th" t)).
      set (h1 := h ++ [Heap.StrList texts]).
      set (g := h1 ++ [Heap.StrList (but_last texts)]).
      assert (Hl1 : List.length h1 = S (List.length h)).
      { unfold h1. rewrite length_app. simpl. lia. }
      assert (Hhs : Heap.strs_at g (S (List.length h)) = Some (but_last texts)).
      { apply strs_at_some. rewrite <- Hl1. apply nth_error_alloc_new. }
      destruct (scrape_table_rows_phase soup g (S (List.length h)) (but_last texts) Hhs)
        as [Hpres Hobs].
      rewrite Ht in Hpres, Hobs. split; [|exact Hobs].
      apply preserved_trans with (h2 := g); [| |exact Hpres].
      * unfold g. rewrite length_app. lia.
      * unfold g, h1. rewrite <- app_assoc. apply preserved_app.
    + cbn [snd]. split.
      * apply preserved_app.
      * unfold scrape_table. rewrite Ht. reflexivity.
Qed.

Lemma strs_at_preserved (h h' : Heap.heap) (l : Heap.loc) (xs : list string) :
  Heap.preserved h h' -> Heap.strs_at h l = Some xs -> Heap.strs_at h' l = Some xs.
Proof.
  intros Hpres Hxs. apply strs_at_some in Hxs. apply strs_at_some.
  rewrite Hpres; [exact Hxs|]. apply nth_error_Some. congruence.
Qed.

Lemma observe_preserved (h h' : Heap.heap) (r : result (Heap.loc * Heap.loc))
    (v : result (list (list string) * list string)) :
  Heap.preserved h h' ->
  Heap.observe (r, h) = Some v -> Heap.observe (r, h') = Some v.
Proof.
  intros Hpres. destruct r as [[lr lh]|e]; [|trivial].
  unfold Heap.observe, Heap.rows_at.
  destruct (nth_error h lr) as [[xs|rs]|] eqn:Hlr; try discriminate.
  destruct (Heap.all_some (map (Heap.strs_at h) rs)) as [vals|] eqn:Hvals;
    [|discriminate].
  destruct (Heap.strs_at h lh) as [hs|] eqn:Hhs; [|discriminate].
  intros Hv.
  rewrite Hpres, Hlr by (apply nth_error_Some; congruence).
  rewrite (all_some_map_ext (Heap.strs_at h) (Heap.strs_at h') rs
             (fun l xs => strs_at_preserved h h' l xs Hpres) vals Hvals).
  now rewrite (strs_at_preserved h h' lh hs Hpres Hhs).
Qed.

(** C9.  Two calls of [scrape_table] in a row, on the same document and with
    the same [headers] argument, return lists of the same contents (or raise
    the same exception): the call changes no object that existed before it,
    the header list it was given among them, so the second call starts from
    what the first started from and the lists returned by the first are still
    as they were after the second. *)
Theorem scrape_table_repeatable
    (soup : node) (headers : option Heap.loc) (h : Heap.heap) :
  (forall l, headers = Some l -> exists hs, Heap.strs_at h l = Some hs) ->
  let first := Heap.scrape_table soup headers h in
  let second := Heap.scrape_table soup headers (snd first) in
  Heap.observe first
    = Some (scrape_table soup
              match headers with
              | Some l => Heap.strs_at h l
              | None => None
              end)
  /\ Heap.observe second = Heap.observe first
  /\ Heap.observe (fst first, snd second) = Heap.observe first
  /\ Heap.preserved h (snd first)
  /\ Heap.preserved (snd first) (snd second).
Proof.
  intros Hvalid first second.
  destruct (scrape_table_refines soup headers h Hvalid) as [Hpres1 Hobs1].
  fold first in Hpres1, Hobs1.
  assert (Hsame : match headers with
                  | Some l => Heap.strs_at (snd first) l
                  | None => None
                  end
                  = match headers with
                    | Some l => Heap.strs_at h l
                    | None => None
                    end).
  { destruct headers as [l|]; [|reflexivity].
    destruct (Hvalid l eq_refl) as [hs Hhs].
    now rewrite Hhs, (strs_at_preserved h (snd first) l hs Hpres1 Hhs). }
  assert (Hvalid' : forall l, headers = Some l ->
                      exists hs, Heap.strs_at (snd first) l = Some hs).
  { intros l Hl. destruct (Hvalid l Hl) as [hs Hhs]. exists hs.
    now apply (strs_at_preserved h). }
  destruct (scrape_table_refines soup headers (snd first) Hvalid')
    as [Hpres2 Hobs2].
  fold second in Hpres2, Hobs2. rewrite Hsame in Hobs2.
  split; [exact Hobs1|]. split; [congruence|]. split; [|split; assumption].
  rewrite Hobs1. apply (observe_preserved (snd first)); [exact Hpres2|].
  rewrite <- Hobs1. now destruct first.
Qed.

Lemma scrape_table_repeatable_witness :
  let h := [Heap.StrList ["A"; "B"]] in
  Heap.observe
    (Heap.scrape_table Sample.page1 (Some 0%nat)
       (snd (Heap.scrape_table Sample.page1 (Some 0%nat) h)))
  = Some (Ok ([["x"; "y"]; []], ["A"; "B"])).
Proof.
  intros h.
  destruct (scrape_table_repeatable Sample.page1 (Some 0%nat) h)
    as (Hfirst & Hsecond & _).
  - intros l Hl. injection Hl as <-. exists ["A"; "B"]. reflexivity.
  - rewrite Hsecond, Hfirst. reflexivity.
Defined.

(** * Further properties *)

(** ** parse_size: strings that are not a range of two bounds *)

Lemma split_without_separator (sep s cur : string) :
  PyStr.contains sep s = false ->
  PyStr.split_from sep s cur 0 = [(PyStr.rev_string "" cur ++ s)%string].
Proof.
  revert cur. induction s as [|c s IH]; intros cur H.
  - simpl. now rewrite append_empty_r.
  - cbn [PyStr.contains] in H. apply orb_false_iff in H as [Hp Hs].
    cbn [PyStr.split_from]. rewrite Hp, IH by assumption.
    simpl. rewrite (rev_string_acc cur (String c "")), append_assoc. reflexivity.
Qed.

Lemma split_from_cons (sep s cur : string) (skip : nat) :
  exists piece rest, PyStr.split_from sep s cur skip = piece :: rest.
Proof.
  revert cur skip. induction s as [|c s IH]; intros cur skip.
  - simpl. eauto.
  - cbn [PyStr.split_from]. destruct skip as [|k]; [|apply IH].
    destruct (prefix sep (String c s)); [eauto | apply IH].
Qed.

(** X1.  A size string in which no en-dash occurs, for instance a range
    written with a hyphen or a single bound, makes [parse_size] raise
    ValueError, whichever bound is asked for. *)
Theorem parse_size_without_en_dash
    (F : Type) (float : string -> option F) (fmul_int : F -> Z -> F)
    (size_str : string) (minimum_val : bool) :
  PyStr.contains en_dash size_str = false ->
  parse_size F float fmul_int size_str minimum_val = Raise ValueError.
Proof.
  intros H. unfold parse_size, PyStr.split.
  now rewrite (split_without_separator en_dash size_str "" H).
Qed.

Lemma parse_size_without_en_dash_witness :
  Exact.parse_size "1K-15M" true = Raise ValueError
  /\ Exact.parse_size "250K" false = Raise ValueError.
Proof.
  split.
  - apply (parse_size_without_en_dash Q Exact.float Exact.fmul_int "1K-15M" true).
    reflexivity.
  - apply (parse_size_without_en_dash Q Exact.float Exact.fmul_int "250K" false).
    reflexivity.
Defined.

(** X2.  A size string with a second en-dash has more than two parts and makes
    [parse_size] raise ValueError, whatever the parts are and whichever bound
    is asked for. *)
Theorem parse_size_three_parts
    (F : Type) (float : string -> option F) (fmul_int : F -> Z -> F)
    (x y z : string) (minimum_val : bool) :
  all_chars (other_than (ascii_of_nat 226)) x = true ->
  all_chars (other_than (ascii_of_nat 226)) y = true ->
  parse_size F float fmul_int (x ++ en_dash ++ y ++ en_dash ++ z)%string minimum_val
  = Raise ValueError.
Proof.
  intros Hx Hy. unfold parse_size, PyStr.split.
  rewrite (split_at_en_dash x (y ++ en_dash ++ z) "" Hx).
  rewrite (split_at_en_dash y z "" Hy).
  destruct (split_from_cons en_dash z "" 0) as (piece & rest & ->).
  reflexivity.
Qed.

Lemma parse_size_three_parts_witness :
  Exact.parse_size "1K–5K–15K" true = Raise ValueError.
Proof.
  apply (parse_size_three_parts Q Exact.float Exact.fmul_int "1K" "5K" "15K" true);
    reflexivity.
Defined.

(** X3.  [parse_size] converts only the bound it is asked for: with
    [minimum_val = True] the text after the en-dash is not read, and with
    [minimum_val = False] the text before it is not, so a bound that is no
    number goes unnoticed when the other one is asked for. *)
Theorem parse_size_reads_one_bound
    (F : Type) (float : string -> option F) (fmul_int : F -> Z -> F)
    (a other : string) (sa : suffix) :
  is_decimal a = true ->
  all_chars (other_than (ascii_of_nat 226)) other = true ->
  parse_size F float fmul_int ((a ++ suffix_text sa) ++ en_dash ++ other)%string true
    = scaled_bound F float fmul_int a sa
  /\ parse_size F float fmul_int (other ++ en_dash ++ (a ++ suffix_text sa))%string false
    = scaled_bound F float fmul_int a sa.
Proof.
  intros Ha Ho.
  assert (Hbound : all_chars (other_than (ascii_of_nat 226))
                     (a ++ suffix_text sa)%string = true).
  { rewrite all_chars_app, suffix_text_chars, andb_true_r.
    apply all_chars_weaken with (p := decimal_char).
    - intros c Hc. apply (decimal_char_other c Hc).
    - now apply is_decimal_chars. }
  unfold parse_size, PyStr.split. split.
  - rewrite (split_at_en_dash _ other "" Hbound).
    unfold en_dash at 1. rewrite (split_absent _ _ other "" Ho).
    now apply to_number_bound.
  - rewrite (split_at_en_dash other _ "" Ho).
    unfold en_dash at 1. rewrite (split_absent _ _ _ "" Hbound).
    now apply to_number_bound.
Qed.

Lemma parse_size_reads_one_bound_witness :
  Exact.parse_size "1K–n/a" true = Ok 1000%Q
  /\ Exact.parse_size "n/a–1K" false = Ok 1000%Q
  /\ Exact.parse_size "1K–n/a" false = Raise ValueError.
Proof.
  destruct (parse_size_reads_one_bound Q Exact.float Exact.fmul_int
              "1" "n/a" SuffixK eq_refl eq_refl) as [Hmin Hmax].
  split; [exact Hmin|]. split; [exact Hmax | reflexivity].
Defined.

(** ** to_number: where the letter stands *)

Lemma contains_middle (ch : ascii) (a b : string) :
  PyStr.contains (String ch "") (a ++ String ch b)%string = true.
Proof.
  induction a as [|c a IH].
  - cbn [append PyStr.contains]. rewrite prefix_cons, Ascii.eqb_refl, prefix_empty.
    reflexivity.
  - change (prefix (String ch "") (String c (a ++ String ch b)%string)
            || PyStr.contains (String ch "") (a ++ String ch b)%string = true).
    rewrite IH. apply orb_true_r.
Qed.

Lemma replace_middle (ch : ascii) (a b : string) :
  all_chars (other_than ch) a = true ->
  all_chars (other_than ch) b = true ->
  PyStr.replace (String ch "") "" (a ++ String ch b)%string = (a ++ b)%string.
Proof.
  intros Ha Hb. unfold PyStr.replace. induction a as [|c a IH].
  - cbn [append PyStr.replace_from].
    rewrite prefix_cons, Ascii.eqb_refl, prefix_empty. cbn [andb String.length Nat.sub].
    apply (replace_absent ch "" b Hb).
  - simpl in Ha. apply andb_true_iff in Ha as [Hc Ha].
    apply negb_true_iff in Hc.
    change (String c a ++ String ch b)%string with (String c (a ++ String ch b)%string).
    cbn [PyStr.replace_from]. rewrite (prefix_head_neq _ _ _ _ Hc), IH by assumption.
    reflexivity.
Qed.

(** X4.  [to_number] does not ask the letter to end the bound: a K (or, when
    there is no K, an M) standing anywhere among the digits is taken out and
    the digits left are read as one number, scaled by 1,000 (or 1,000,000). *)
Theorem to_number_letter_anywhere
    (F : Type) (float : string -> option F) (fmul_int : F -> Z -> F)
    (a b : string) :
  all_chars decimal_char a = true ->
  all_chars decimal_char b = true ->
  to_number F float fmul_int (a ++ "K" ++ b)%string
    = bind (of_option ValueError (float (a ++ b)%string))
           (fun x => Ok (fmul_int x 1000%Z))
  /\ to_number F float fmul_int (a ++ "M" ++ b)%string
    = bind (of_option ValueError (float (a ++ b)%string))
           (fun x => Ok (fmul_int x 1000000%Z)).
Proof.
  intros Ha Hb.
  assert (HK : forall s, all_chars decimal_char s = true ->
                 all_chars (other_than "K") s = true).
  { intros s. apply all_chars_weaken. intros c Hc. apply (decimal_char_other c Hc). }
  assert (HM : forall s, all_chars decimal_char s = true ->
                 all_chars (other_than "M") s = true).
  { intros s. apply all_chars_weaken. intros c Hc. apply (decimal_char_other c Hc). }
  unfold to_number. cbn [append]. split.
  - rewrite (contains_middle "K" a b).
    now rewrite (replace_middle "K" a b (HK a Ha) (HK b Hb)).
  - rewrite (contains_absent "K" "" (a ++ String "M" b)%string).
    + rewrite (contains_middle "M" a b).
      now rewrite (replace_middle "M" a b (HM a Ha) (HM b Hb)).
    + rewrite all_chars_app. cbn [all_chars]. now rewrite (HK a Ha), (HK b Hb).
Qed.

Lemma to_number_letter_anywhere_witness :
  to_number Q Exact.float Exact.fmul_int "K5" = Ok 5000%Q
  /\ to_number Q Exact.float Exact.fmul_int "1M5" = Ok 15000000%Q.
Proof.
  split.
  - destruct (to_number_letter_anywhere Q Exact.float Exact.fmul_int "" "5"
                eq_refl eq_refl) as [HK _].
    exact HK.
  - destruct (to_number_letter_anywhere Q Exact.float Exact.fmul_int "1" "5"
                eq_refl eq_refl) as [_ HM].
    exact HM.
Defined.

(** ** scrape_trades: runs that stop early, empty runs, the header sequence *)

Lemma range_split (lo mid hi : Z) :
  (lo <= mid <= hi)%Z -> range lo hi = range lo mid ++ range mid hi.
Proof.
  intros H. unfold range.
  replace (Z.to_nat (hi - lo)) with (Z.to_nat (mid - lo) + Z.to_nat (hi - mid))%nat
    by lia.
  rewrite seq_app, map_app. f_equal.
  assert (Hshift : forall k start,
            map (fun i => (lo + Z.of_nat i)%Z) (seq (Z.to_nat (mid - lo) + start) k)
            = map (fun i => (mid + Z.of_nat i)%Z) (seq start k)).
  { induction k as [|k IH]; intros start; [reflexivity|].
    cbn [seq map]. f_equal; [lia|].
    rewrite <- IH. now rewrite Nat.add_succ_r. }
  rewrite <- (Hshift _ 0%nat). now rewrite Nat.add_0_r.
Qed.

Lemma range_empty (lo hi : Z) : (hi <= lo)%Z -> range lo hi = [].
Proof.
  intros H. apply length_zero_iff_nil. rewrite range_length. lia.
Qed.

Lemma fbind_run {A B : Type} (m : Fetch A) (k : A -> Fetch B) (log : list string) :
  fbind m k log
  = match m log with
    | (Ok a, log') => k a log'
    | (Raise e, log') => (Raise e, log')
    end.
Proof. reflexivity. Qed.

Section ScraperRuns.

Variable http_get : string -> option node.
Variable int_of_str : string -> option Z.
Variable docs : Z -> node.

Lemma number_of_pages_requests (log : list string) :
  snd (number_of_pages http_get int_of_str log) = log ++ [url].
Proof.
  unfold number_of_pages, fbind, get_html_soup, lift.
  destruct (http_get url); reflexivity.
Qed.

Lemma scrape_pages_app (xs ys : list Z) :
  forall acc log,
    scrape_pages http_get (xs ++ ys) acc log
    = fbind (scrape_pages http_get xs acc) (scrape_pages http_get ys) log.
Proof.
  induction xs as [|x xs IH]; intros acc log.
  - reflexivity.
  - cbn [app scrape_pages]. rewrite !fbind_run.
    destruct (scrape_page http_get x acc log) as [[acc'|e] log']; [|reflexivity].
    now rewrite IH, fbind_run.
Qed.

Lemma scrape_page_unreachable (page : Z) (acc : list (list string) * option (list string))
    (log : list string) :
  http_get (page_url page) = None ->
  scrape_page http_get page acc log = (Raise HTTPError, log ++ [page_url page]).
Proof.
  intros H. destruct acc as [rows headers].
  unfold scrape_page, fbind, get_html_soup. now rewrite H.
Qed.

Lemma scrape_trades_from_count (first : node) (n : Z) (log : list string) :
  http_get url = Some first ->
  py_int int_of_str (total_pages_text first) = Ok n ->
  scrape_trades http_get int_of_str log
  = match scrape_pages http_get (range 1 (n + 1)) ([], None) (log ++ [url]) with
    | (Ok (rows, headers), log') => (Polars.data_frame rows headers, log')
    | (Raise e, log') => (Raise e, log')
    end.
Proof.
  intros Hfirst Hn.
  unfold scrape_trades, number_of_pages, fbind, get_html_soup, lift.
  rewrite Hfirst. cbn [of_option]. rewrite Hn.
  destruct (scrape_pages http_get (range 1 (n + 1)) ([], None) (log ++ [url]))
    as [[[rows headers]|e] log']; [|reflexivity].
  destruct (Polars.data_frame rows headers); reflexivity.
Qed.

End ScraperRuns.





(** X7.  When the count announced is zero or negative, [scrape_trades] asks
    for no page and returns the empty frame, without column or row. *)
Theorem scrape_trades_no_pages
    (http_get : string -> option node) (int_of_str : string -> option Z)
    (first : node) (n : Z) :
  http_get url = Some first ->
  py_int int_of_str (total_pages_text first) = Ok n ->
  (n <= 0)%Z ->
  scrape_trades http_get int_of_str [] = (Ok [], [url]).
Proof.
  intros Hfirst Hn Hle.
  rewrite (scrape_trades_from_count http_get int_of_str first n [] Hfirst Hn).
  rewrite range_empty by lia. reflexivity.
Qed.

Lemma scrape_trades_no_pages_witness :
  scrape_trades Fixture.empty_site Sample.int_of_str []
  = (Ok [], ["https://www.capitoltrades.com/trades"]).
Proof.
  apply (scrape_trades_no_pages Fixture.empty_site Sample.int_of_str
           (Fixture.listing "0") 0); [reflexivity | reflexivity | lia].
Defined.

(** X8.  When the first page of trades has no trades table, [scrape_trades]
    raises AttributeError after two requests: the header sequence cannot be
    derived, and no later page is asked for. *)
Theorem scrape_trades_first_page_without_table
    (http_get : string -> option node) (int_of_str : string -> option Z)
    (first page1 : node) (n : Z) :
  http_get url = Some first ->
  py_int int_of_str (total_pages_text first) = Ok n ->
  (1 <= n)%Z ->
  http_get (page_url 1) = Some page1 ->
  trades_table page1 = None ->
  scrape_trades http_get int_of_str [] = (Raise AttributeError, [url; page_url 1]).
Proof.
  intros Hfirst Hn Hle Hget Htab.
  rewrite (scrape_trades_from_count http_get int_of_str first n [] Hfirst Hn).
  rewrite range_head by lia. cbn [scrape_pages]. rewrite fbind_run.
  unfold scrape_page. rewrite fbind_run. unfold get_html_soup.
  rewrite Hget. cbn [of_option]. rewrite fbind_run. unfold lift, scrape_table.
  rewrite Htab. reflexivity.
Qed.

Lemma scrape_trades_first_page_without_table_witness :
  scrape_trades Fixture.bare_site Sample.int_of_str []
  = (Raise AttributeError,
     ["https://www.capitoltrades.com/trades";
      "https://www.capitoltrades.com/trades?page=1"]).
Proof.
  apply (scrape_trades_first_page_without_table Fixture.bare_site Sample.int_of_str
           (Fixture.listing "2") no_table_page 2);
    [reflexivity | reflexivity | lia | reflexivity | reflexivity].
Defined.

Lemma concat_map_filter {A B : Type} (f : A -> list B) (keep : A -> bool)
    (xs : list A) :
  (forall x, keep x = false -> f x = []) ->
  List.concat (map f xs) = List.concat (map f (filter keep xs)).
Proof.
  intros Hf. induction xs as [|x xs IH]; [reflexivity|].
  cbn [map List.concat filter]. destruct (keep x) eqn:Hx.
  - cbn [map List.concat]. now rewrite IH.
  - now rewrite (Hf x Hx), IH.
Qed.

Lemma page_rows_without_table (soup : node) :
  has_table soup = false -> page_rows soup = [].
Proof.
  unfold has_table, page_rows.
  destruct (trades_table soup); [discriminate | reflexivity].
Qed.

(** The frame of a run whose rows fit the header sequence. *)
Lemma scrape_trades_fitting
    (http_get : string -> option node) (int_of_str : string -> option Z)
    (docs : Z -> node) (first : node) (n : Z) (headers : list string) :
  http_get url = Some first ->
  py_int int_of_str (total_pages_text first) = Ok n ->
  (forall p, (1 <= p <= n)%Z -> http_get (page_url p) = Some (docs p)) ->
  first_headers docs (range 1 (n + 1)) = Some headers ->
  NoDup headers ->
  (forall row,
     In row (List.concat (map (fun p => page_rows (docs p)) (range 1 (n + 1)))) ->
     List.length row = List.length headers) ->
  scrape_trades http_get int_of_str []
  = (Ok (Polars.columns_from 0 headers
           (List.concat (map (fun p => page_rows (docs p)) (range 1 (n + 1))))),
     url :: map page_url (range 1 (n + 1))).
Proof.
  intros Hfirst Hn Hget Hh Hnd Hfit.
  rewrite (scrape_trades_run http_get int_of_str docs first n [] Hfirst Hn Hget).
  - now rewrite Hh, (data_frame_fits _ headers Hnd Hfit).
  - intros Hle Hnone. rewrite range_head in Hh by lia.
    cbn [first_headers] in Hh. now rewrite Hnone in Hh.
Qed.





(** ** The script and the requests of a run *)



Lemma append_inj_l (s a b : string) : (s ++ a)%string = (s ++ b)%string -> a = b.
Proof.
  induction s as [|c s IH]; cbn [append]; [trivial|].
  intros H. injection H as H. now apply IH.
Qed.

Lemma format_int_inj (a b : Z) : format_int a = format_int b -> a = b.
Proof.
  unfold format_int. intros H. apply DecimalZ.to_int_inj.
  apply (f_equal NilEmpty.int_of_string) in H.
  rewrite !NilEmpty.isi in H. now injection H.
Qed.

Lemma page_url_inj (a b : Z) : page_url a = page_url b -> a = b.
Proof.
  unfold page_url. intros H. apply append_inj_l in H. now apply format_int_inj.
Qed.

Lemma page_url_not_listing (p : Z) : page_url p <> url.
Proof.
  change (page_url p) with (url ++ ("?page=" ++ format_int p))%string.
  rewrite <- (append_empty_r url) at 2.
  intros H. apply append_inj_l in H. discriminate.
Qed.

Lemma NoDup_map_injective {A B : Type} (f : A -> B) (xs : list A) :
  (forall x y, f x = f y -> x = y) -> NoDup xs -> NoDup (map f xs).
Proof.
  intros Hinj Hxs. induction Hxs as [|x xs Hx Hxs IH]; cbn [map]; constructor.
  - intros Hin. apply in_map_iff in Hin as (y & Hy & Hin).
    apply Hinj in Hy. now subst.
  - exact IH.
Qed.

Lemma range_NoDup (lo hi : Z) : NoDup (range lo hi).
Proof.
  unfold range. apply NoDup_map_injective; [intros x y; lia | apply seq_NoDup].
Qed.

(** X12.  In a complete run of [scrape_trades] no address is requested twice:
    the addresses of two different pages differ, and none of them is the
    address of the listing. *)
Theorem scrape_trades_requests_distinct
    (http_get : string -> option node) (int_of_str : string -> option Z)
    (docs : Z -> node) (first : node) (n : Z) :
  http_get url = Some first ->
  py_int int_of_str (total_pages_text first) = Ok n ->
  (forall p, (1 <= p <= n)%Z -> http_get (page_url p) = Some (docs p)) ->
  ((1 <= n)%Z -> trades_table (docs 1%Z) <> None) ->
  NoDup (snd (scrape_trades http_get int_of_str []))
  /\ (forall p q, page_url p = page_url q -> p = q)
  /\ (forall p, page_url p <> url).
Proof.
  intros Hfirst Hn Hget Htab.
  split; [|split; [exact page_url_inj | exact page_url_not_listing]].
  rewrite (scrape_trades_run http_get int_of_str docs first n [] Hfirst Hn Hget Htab).
  cbn [snd app]. constructor.
  - intros Hin. apply in_map_iff in Hin as (p & Hp & _).
    now apply (page_url_not_listing p).
  - apply NoDup_map_injective; [exact page_url_inj | apply range_NoDup].
Qed.

Lemma scrape_trades_requests_distinct_witness :
  NoDup (snd (Sample.scrape_trades [])).
Proof.
  apply (scrape_trades_requests_distinct Sample.http_get Sample.int_of_str
           (Fixture.pages Sample.page2) Sample.page1 3).
  - reflexivity.
  - reflexivity.
  - intros p Hp.
    assert (Hc : p = 1%Z \/ p = 2%Z \/ p = 3%Z) by lia.
    destruct Hc as [-> | [-> | ->]]; reflexivity.
  - intros _. discriminate.
Defined.

(** ** scrape_table: which lists it returns *)

Lemma rows_phase_result (soup : node) (g : Heap.heap) (lh : Heap.loc) :
  fst (Heap.sbind (Heap.alloc (Heap.RowList [])) (fun rows =>
       Heap.sbind (match trades_table soup with
                   | Some t => Heap.for_each (Soup.find_all "tr" t) (Heap.scrape_row rows)
                   | None => Heap.ret tt
                   end) (fun _ => Heap.ret (rows, lh))) g)
  = Ok (List.length g, lh).
Proof.
  assert (Hinv0 : rows_inv g [] (g ++ [Heap.RowList []])).
  { split; [rewrite length_app; simpl; lia|]. split.
    - intros l Hl. now apply nth_error_alloc_old.
    - exists []. split; [apply nth_error_alloc_new | reflexivity]. }
  rewrite sbind_run. unfold Heap.alloc at 1. rewrite sbind_run.
  destruct (trades_table soup) as [t|].
  - destruct (rows_loop (Soup.find_all "tr" t) g [] _ Hinv0) as (h' & Hrun & _).
    now rewrite Hrun.
  - reflexivity.
Qed.

(** X13.  Given a header list, [scrape_table] returns that very list, not a
    copy, beside a list of rows that is a new object; given none, on a page
    with the trades table, both lists returned are new objects, different
    from each other. *)
Theorem scrape_table_returned_lists (soup : node) (h : Heap.heap) :
  (forall l, fst (Heap.scrape_table soup (Some l) h) = Ok (List.length h, l))
  /\ (trades_table soup <> None ->
      exists rows headers,
        fst (Heap.scrape_table soup None h) = Ok (rows, headers)
        /\ (List.length h <= headers)%nat
        /\ (List.length h <= rows)%nat
        /\ rows <> headers).
Proof.
  split.
  - intros l. unfold Heap.scrape_table. rewrite sbind_run. unfold Heap.ret at 1.
    apply rows_phase_result.
  - intros Ht. unfold Heap.scrape_table. rewrite sbind_run, headers_phase.
    destruct (trades_table soup) as [t|] eqn:Htab; [|congruence]. cbv zeta.
    set (g := (h ++ [Heap.StrList (cell_texts (Soup.find_all "th" t))])
              ++ [Heap.StrList (but_last (cell_texts (Soup.find_all "th" t)))]).
    pose proof (rows_phase_result soup g (S (List.length h))) as Hres.
    rewrite Htab in Hres.
    exists (List.length g), (S (List.length h)). split; [exact Hres|].
    unfold g. rewrite !length_app. cbn [List.length]. lia.
Qed.

Lemma scrape_table_returned_lists_witness :
  fst (Heap.scrape_table Sample.page2 (Some 0%nat) [Heap.StrList ["A"; "B"]])
  = Ok (1%nat, 0%nat)
  /\ exists rows headers,
       fst (Heap.scrape_table Sample.page1 None [Heap.StrList ["A"; "B"]])
       = Ok (rows, headers)
       /\ rows <> headers.
Proof.
  destruct (scrape_table_returned_lists Sample.page2 [Heap.StrList ["A"; "B"]])
    as [Hgiven _].
  destruct (scrape_table_returned_lists Sample.page1 [Heap.StrList ["A"; "B"]])
    as [_ Hnew].
  split; [apply Hgiven|].
  destruct Hnew as (rows & headers & Hrun & _ & _ & Hne); [discriminate|].
  exists rows, headers. split; assumption.
Defined.

(** ** clean_dataframe: the frame around the two date columns *)

Lemma col_missing (name : string) (df : Polars.DataFrame) :
  ~ In name (column_names df) -> Polars.col name df = Raise ColumnNotFound.
Proof.
  induction df as [|[n s] df IH]; intros H; [reflexivity|].
  cbn [Polars.col]. destruct (String.eqb n name) eqn:E.
  - apply String.eqb_eq in E. subst n. destruct H. now left.
  - apply IH. intros Hin. apply H. now right.
Qed.

Lemma column_names_with_column (name : string) (s old : Polars.Series)
    (df : Polars.DataFrame) :
  Polars.col name df = Ok old ->
  column_names (Polars.with_column name s df) = column_names df.
Proof.
  induction df as [|[n s0] df IH]; intros H; [discriminate|].
  cbn [Polars.col] in H. cbn [Polars.with_column].
  destruct (String.eqb n name); [reflexivity|].
  unfold column_names in *. cbn [map fst]. now rewrite IH.
Qed.

Lemma convert_dates_ok (df df' : Polars.DataFrame) :
  convert_dates df = Ok df' ->
  exists ps ts p t,
    Polars.col "Published" df = Ok ps
    /\ Polars.col "Traded" df = Ok ts
    /\ Polars.str_to_datetime date_format ps = Ok (Polars.Datetime p)
    /\ Polars.str_to_datetime date_format ts = Ok (Polars.Datetime t)
    /\ df' = Polars.with_column "Traded" (Polars.Datetime t)
               (Polars.with_column "Published" (Polars.Datetime p) df).
Proof.
  unfold convert_dates. intros H.
  destruct (Polars.col "Published" df) as [ps|] eqn:Hps; [|discriminate].
  destruct (Polars.col "Traded" df) as [ts|] eqn:Hts.
  2:{ cbn [bind] in H.
      destruct (Polars.str_to_datetime date_format ps); discriminate. }
  cbn [bind] in H.
  assert (Hdt : forall s r, Polars.str_to_datetime date_format s = Ok r ->
                  exists ds, r = Polars.Datetime ds).
  { intros [vs|vs|vs] r Hr; try discriminate. cbn in Hr.
    destruct (Polars.traverse (Polars.strptime date_format) vs) as [ds|];
      [|discriminate].
    injection Hr as <-. now exists ds. }
  destruct (Polars.str_to_datetime date_format ps) as [p|] eqn:Hp; [|discriminate].
  destruct (Polars.str_to_datetime date_format ts) as [t|] eqn:Ht; [|discriminate].
  cbn [bind] in H. injection H as <-.
  destruct (Hdt ps p Hp) as [pd ->]. destruct (Hdt ts t Ht) as [td ->].
  exists ps, ts, pd, td. repeat split; assumption.
Qed.

(** X14.  When the conversion of the dates succeeds, the frame keeps its
    column names in their order, and every column other than [Published] and
    [Traded] is as it was. *)
Theorem convert_dates_keeps_other_columns (df df' : Polars.DataFrame) :
  convert_dates df = Ok df' ->
  column_names df' = column_names df
  /\ forall name,
       name <> "Published" -> name <> "Traded" ->
       Polars.col name df' = Polars.col name df.
Proof.
  intros H.
  destruct (convert_dates_ok df df' H) as (ps & ts & p & t & Hps & Hts & _ & _ & ->).
  split.
  - rewrite (column_names_with_column "Traded" _ ts).
    + apply (column_names_with_column "Published" _ ps _ Hps).
    + now rewrite col_with_column_other by reflexivity.
  - intros name Hp Ht.
    rewrite col_with_column_other by (now apply String.eqb_neq; congruence).
    apply col_with_column_other. apply String.eqb_neq. congruence.
Qed.

Lemma convert_dates_keeps_other_columns_witness :
  exists df',
    convert_dates Sample.frame = Ok df'
    /\ column_names df' = ["Politician"; "Published"; "Traded"; "Filed after"]
    /\ Polars.col "Filed after" df' = Ok (Polars.Utf8 ["days15"; "days2"]).
Proof.
  assert (Hrun : exists df', convert_dates Sample.frame = Ok df').
  { eexists. reflexivity. }
  destruct Hrun as [df' Hrun]. exists df'. split; [exact Hrun|].
  destruct (convert_dates_keeps_other_columns Sample.frame df' Hrun) as [Hnames Hcols].
  split.
  - rewrite Hnames. reflexivity.
  - rewrite Hcols by discriminate. reflexivity.
Defined.

(** X15.  When the frame has no [Published] column, or no [Traded] column,
    the conversion of the dates raises and returns no frame. *)
Theorem convert_dates_missing_column (df : Polars.DataFrame) (name : string) :
  In name ["Published"; "Traded"] ->
  ~ In name (column_names df) ->
  exists e, convert_dates df = Raise e.
Proof.
  intros Hname Hmissing. apply col_missing in Hmissing. unfold convert_dates.
  destruct Hname as [<- | [<- | []]].
  - rewrite Hmissing. now exists ColumnNotFound.
  - rewrite Hmissing.
    destruct (bind (Polars.col "Published" df) (Polars.str_to_datetime date_format))
      as [p|e]; cbn [bind]; eauto.
Qed.

Lemma convert_dates_missing_column_witness :
  exists e,
    convert_dates [("Published", Polars.Utf8 ["15 Mar2023"])] = Raise e.
Proof.
  apply (convert_dates_missing_column [("Published", Polars.Utf8 ["15 Mar2023"])]
           "Traded").
  - right. left. reflexivity.
  - intros [H | []]. discriminate H.
Defined.

(** X16.  The conversion of the dates cannot be applied twice: on the frame it
    returns, whose date columns are no longer text, it raises. *)
Theorem convert_dates_not_repeatable (df df' : Polars.DataFrame) :
  convert_dates df = Ok df' ->
  exists e, convert_dates df' = Raise e.
Proof.
  intros H.
  destruct (convert_dates_ok df df' H) as (ps & ts & p & t & Hps & Hts & _ & _ & ->).
  exists SchemaError. unfold convert_dates.
  rewrite col_with_column_other by reflexivity.
  rewrite col_with_column_same. reflexivity.
Qed.

Lemma convert_dates_not_repeatable_witness :
  exists df' e,
    convert_dates Sample.frame = Ok df' /\ convert_dates df' = Raise e.
Proof.
  assert (Hrun : exists df', convert_dates Sample.frame = Ok df').
  { eexists. reflexivity. }
  destruct Hrun as [df' Hrun].
  destruct (convert_dates_not_repeatable Sample.frame df' Hrun) as [e He].
  exists df', e. split; assumption.
Defined.
